(** * Controle de qualidade de um lote de peças: modelo e verificação

    Shallow embedding of [Atividades/Atividade2/Atividade2EaD.py].

    Numbers.  The script computes with binary64 floats; the embedding
    computes with exact reals, integers stay integers ([Z], [nat]).  The
    values of the population, the specification bounds and the constants
    are numbers ([R]).  What numpy, pandas and scipy compute from them is
    an [xreal]: a number, [+inf], [-inf] or [nan], with the IEEE rules
    for the special values (numpy divides by zero without raising).
    Plain Python division raises [ZeroDivisionError] instead: it
    returns an [option].

    Rounding.  Where the last bits of a float decide a property (the
    ceiling of the sample size), the lines are also modelled on binary64
    itself, with the kernel's primitive floats ([Binario64]). *)

From Stdlib Require Import Floats.
From Stdlib Require Import String Reals Lra Lia ZArith Bool List Permutation.
Import ListNotations.

Open Scope R_scope.

(** ** Extended reals: the values of numpy's float64, exact on numbers *)

Inductive xreal : Type :=
| Fin (r : R)
| PInf
| NInf
| NaN.

Definition Rleb (a b : R) : bool := if Rle_dec a b then true else false.
Definition Rltb (a b : R) : bool := if Rlt_dec a b then true else false.
Definition Reqb (a b : R) : bool := if Req_dec_T a b then true else false.

Module XR.

Definition inf_of_sign (positive : bool) : xreal :=
  if positive then PInf else NInf.

Definition opp (a : xreal) : xreal :=
  match a with
  | Fin x => Fin (- x)
  | PInf => NInf
  | NInf => PInf
  | NaN => NaN
  end.

Definition add (a b : xreal) : xreal :=
  match a, b with
  | NaN, _ | _, NaN => NaN
  | Fin x, Fin y => Fin (x + y)
  | PInf, NInf | NInf, PInf => NaN
  | PInf, _ | _, PInf => PInf
  | NInf, _ | _, NInf => NInf
  end.

Definition sub (a b : xreal) : xreal := add a (opp b).

Definition mul (a b : xreal) : xreal :=
  match a, b with
  | NaN, _ | _, NaN => NaN
  | Fin x, Fin y => Fin (x * y)
  | Fin x, PInf | PInf, Fin x =>
      if Reqb x 0 then NaN else inf_of_sign (Rltb 0 x)
  | Fin x, NInf | NInf, Fin x =>
      if Reqb x 0 then NaN else inf_of_sign (Rltb x 0)
  | PInf, PInf | NInf, NInf => PInf
  | PInf, NInf | NInf, PInf => NInf
  end.

(** numpy's true division.  Zero carries no sign here: a zero divisor
    counts as [+0] (the divisors of the script are lengths and square
    roots). *)
Definition div (a b : xreal) : xreal :=
  match a, b with
  | NaN, _ | _, NaN => NaN
  | Fin x, Fin y =>
      if Reqb y 0
      then (if Reqb x 0 then NaN else inf_of_sign (Rltb 0 x))
      else Fin (x / y)
  | Fin _, PInf | Fin _, NInf => Fin 0
  | PInf, Fin y => inf_of_sign (Rleb 0 y)
  | NInf, Fin y => inf_of_sign (Rltb y 0)
  | _, _ => NaN
  end.

(** [np.sqrt] *)
Definition sqrt (a : xreal) : xreal :=
  match a with
  | Fin x => if Rltb x 0 then NaN else Fin (R_sqrt.sqrt x)
  | PInf => PInf
  | NInf | NaN => NaN
  end.

(** [abs] *)
Definition abs (a : xreal) : xreal :=
  match a with
  | Fin x => Fin (Rabs x)
  | PInf | NInf => PInf
  | NaN => NaN
  end.

(** [a <= b]: false as soon as one side is [nan]. *)
Definition le (a b : xreal) : bool :=
  match a, b with
  | NaN, _ | _, NaN => false
  | Fin x, Fin y => Rleb x y
  | NInf, _ | _, PInf => true
  | _, _ => false
  end.

(** [a < b] *)
Definition lt (a b : xreal) : bool :=
  match a, b with
  | NaN, _ | _, NaN => false
  | Fin x, Fin y => Rltb x y
  | PInf, _ | _, NInf => false
  | _, _ => true
  end.

(** [a >= b] *)
Definition ge (a b : xreal) : bool := le b a.

(** Python's builtin [max(a, b)]: [b] when [b > a], else [a]. *)
Definition py_max (a b : xreal) : xreal := if lt a b then b else a.

(** Python's builtin [min(a, b)]: [b] when [b < a], else [a]. *)
Definition py_min (a b : xreal) : xreal := if lt b a then b else a.

End XR.

(** Python's [/] on floats and ints: raises [ZeroDivisionError]
    ([None]) on a zero divisor. *)
Definition py_div (a b : R) : option R :=
  if Reqb b 0 then None else Some (a / b).

(** ** Section 2 of the script: sample size *)

Module Amostragem.

(** [n_calculado = (z**2 * p * (1-p) * N) / (E**2 * (N-1) + z**2 * p * (1-p))] *)
Definition n_calculado (N : Z) (z p E : R) : option R :=
  py_div (z ^ 2 * p * (1 - p) * IZR N)
         (E ^ 2 * (IZR N - 1) + z ^ 2 * p * (1 - p)).

(** [n_amostra = int(np.ceil(n_calculado))] *)
Definition n_amostra (N : Z) (z p E : R) : option Z :=
  option_map Zceil (n_calculado N z p E).

(** Follows the spec's words ("the margin-of-error constraint for given
    N, z, p, E"): the margin of error that a simple random sample of
    size [n], drawn without replacement from a population of size [N],
    implies for a proportion [p] at critical value [z]; the standard error
    [sqrt (p(1-p)/n)] carries the finite-population correction
    [(N-n)/(N-1)]. *)
Definition margem_implicita (N : Z) (z p : R) (n : Z) : R :=
  z * sqrt (p * (1 - p) / IZR n * ((IZR N - IZR n) / (IZR N - 1))).

(** The constraint the sample size has to meet. *)
Definition satisfaz_margem (N : Z) (z p E : R) (n : Z) : Prop :=
  margem_implicita N z p n <= E.

(** [np.random.choice(a, size=size, replace=False)] of the legacy
    [RandomState]: [ValueError] ([None]) when [size > a], else the first
    [size] entries of [permutation(a)].  The permutation is what the
    generator state yields; it is an input here. *)
Definition choice (permutation : list nat) (a size : nat) : option (list nat) :=
  if (size <=? a)%nat then Some (firstn size permutation) else None.

End Amostragem.

(** ** The tables: population, sample, specification *)

(** One row of the [DataFrame]: the columns ['peso'] and ['dimensao']. *)
Record peca : Type := { peso : R; dimensao : R }.

Definition DataFrame : Type := list peca.

(** [df['peso']], [df['dimensao']]: a column as a series. *)
Definition coluna (campo : peca -> R) (df : DataFrame) : list R :=
  map campo df.

(** [df.iloc[indices]]: the rows at the given positions, in that order;
    [IndexError] ([None]) on a position out of range. *)
Fixpoint iloc (df : DataFrame) (indices : list nat) : option DataFrame :=
  match indices with
  | [] => Some []
  | i :: rest =>
      match nth_error df i, iloc df rest with
      | Some r, Some rs => Some (r :: rs)
      | _, _ => None
      end
  end.

(** The dict [especificacoes]. *)
Record especificacao : Type := {
  peso_min : R;
  peso_max : R;
  dimensao_min : R;
  dimensao_max : R
}.

(** ** Section 3 of the script: descriptive statistics *)

Module Descritiva.

Definition soma (l : list R) : R := fold_right Rplus 0 l.

(** [dados.mean()], [np.mean(a)]: [nan] on an empty series. *)
Definition mean (dados : list R) : xreal :=
  XR.div (Fin (soma dados)) (Fin (INR (length dados))).

(** Sum of the squared deviations from the mean. *)
Definition soma_quadrados (dados : list R) : R :=
  let m := soma dados / INR (length dados) in
  soma (map (fun x => (x - m) ^ 2) dados).

(** [dados.var(ddof=ddof)] of pandas: [nan] when [count <= ddof]. *)
Definition var (dados : list R) (ddof : nat) : xreal :=
  if (length dados <=? ddof)%nat then NaN
  else Fin (soma_quadrados dados / (INR (length dados) - INR ddof)).

(** [dados.std(ddof=ddof)] *)
Definition std (dados : list R) (ddof : nat) : xreal :=
  XR.sqrt (var dados ddof).

(** The entries of [stats_dict] that later steps of the script read
    (['n'], ['média'], ['desvio_padrão']) and the two derived from them
    (['variância'], ['coef_variação']); the median, mode, range,
    quartiles, skewness and kurtosis are only printed. *)
Record stats_dict : Type := {
  n : nat;
  media : xreal;
  desvio_padrao : xreal;
  variancia : xreal;
  coef_variacao : xreal
}.

Definition calcular_estatisticas (dados : list R) : stats_dict :=
  {| n := length dados;
     media := mean dados;
     desvio_padrao := std dados 1;
     variancia := var dados 1;
     coef_variacao := XR.mul (XR.div (std dados 1) (mean dados)) (Fin 100) |}.

End Descritiva.

(** ** Section 4 of the script: hypothesis tests *)

(** The distribution functions of [scipy.stats] the script calls, on
    numbers: Student's t ([stats.t.cdf], [stats.t.ppf], by degrees of
    freedom) and the standard normal ([stats.norm.cdf], [stats.norm.ppf]). *)
Class ScipyStats : Type := {
  t_cdf : Z -> R -> R;
  t_ppf : Z -> R -> R;
  norm_cdf : R -> R;
  norm_ppf : R -> R
}.

Module Testes.

Import Descritiva.

Section ComBiblioteca.

Context {S : ScipyStats}.

(** [np.var(a, ddof=ddof)]: the sum of squares divided by
    [max(n - ddof, 0)]. *)
Definition np_var (a : list R) (ddof : nat) : xreal :=
  XR.div (Fin (soma_quadrados a)) (Fin (INR (length a - ddof))).

(** [stats.t.sf(x, df)]: [nan] unless [df > 0]. *)
Definition t_sf (x : xreal) (df : Z) : xreal :=
  if (0 <? df)%Z then
    match x with
    | Fin r => Fin (1 - t_cdf df r)
    | PInf => Fin 0
    | NInf => Fin 1
    | NaN => NaN
    end
  else NaN.

(** [stats.t.ppf(q, df)] for [0 < q < 1]: [nan] unless [df > 0]. *)
Definition t_ppf_x (q : R) (df : Z) : xreal :=
  if (0 <? df)%Z then Fin (t_ppf df q) else NaN.

(** [stats.norm.cdf(x)] *)
Definition norm_cdf_x (x : xreal) : xreal :=
  match x with
  | Fin r => Fin (norm_cdf r)
  | PInf => Fin 1
  | NInf => Fin 0
  | NaN => NaN
  end.

(** [stats.ttest_1samp(a, popmean)], two-sided, as scipy defines it:
    [d = mean(a) - popmean], [v = var(a, ddof=1)], [denom = sqrt(v / n)],
    [t = d / denom], [prob = 2 * t.sf(|t|, n - 1)]. *)
Definition ttest_1samp (a : list R) (popmean : R) : xreal * xreal :=
  let n := length a in
  let df := (Z.of_nat n - 1)%Z in
  let d := XR.sub (mean a) (Fin popmean) in
  let v := np_var a 1 in
  let denom := XR.sqrt (XR.div v (Fin (INR n))) in
  let t := XR.div d denom in
  (t, XR.mul (Fin 2) (t_sf (XR.abs t) df)).

(** [t_critico = stats.t.ppf(1-alpha/2, len(amostra)-1)] *)
Definition t_critico (alpha : R) (amostra : DataFrame) : xreal :=
  t_ppf_x (1 - alpha / 2) (Z.of_nat (length amostra) - 1).

(** The decision of each test:
    [if p_value < alpha: "Rejeitamos H0" else: "Não rejeitamos H0"]. *)
Definition decisao (p_value : xreal) (alpha : R) : string :=
  if XR.lt p_value (Fin alpha) then "Rejeitamos H0"%string
  else "Não rejeitamos H0"%string.

(** [p_obs = x / n], numpy's division. *)
Definition p_obs (x n : nat) : xreal :=
  XR.div (Fin (INR x)) (Fin (INR n)).

(** [z_stat = (p_obs - p0) / np.sqrt(p0 * (1 - p0) / n)]; the inner
    division is Python's. *)
Definition z_stat (p_obs : xreal) (p0 : R) (n : nat) : option xreal :=
  match py_div (p0 * (1 - p0)) (INR n) with
  | Some q => Some (XR.div (XR.sub p_obs (Fin p0)) (XR.sqrt (Fin q)))
  | None => None
  end.

(** [p_value_prop = stats.norm.cdf(z_stat)] *)
Definition p_value_prop (p_obs : xreal) (p0 : R) (n : nat) : option xreal :=
  option_map norm_cdf_x (z_stat p_obs p0 n).

End ComBiblioteca.

End Testes.

(** Student's t with one degree of freedom is the Cauchy distribution:
    [cdf(x) = 1/2 + atan(x)/pi], [ppf(q) = tan(pi (q - 1/2))]. *)
Definition cauchy_cdf (x : R) : R := 1 / 2 + atan x / PI.

Definition cauchy_ppf (q : R) : R := tan (PI * (q - 1 / 2)).

(** A library to run the tests with on samples of two values (one degree
    of freedom); the normal entries stand in with the same functions. *)
Definition biblioteca_t1 : ScipyStats :=
  {| t_cdf := fun _ => cauchy_cdf;
     t_ppf := fun _ => cauchy_ppf;
     norm_cdf := cauchy_cdf;
     norm_ppf := cauchy_ppf |}.

(** ** Conformity with the specification *)

Module Conformidade.

(** [serie >= c], [serie <= c], [a & b], [serie.sum()] on series. *)
Definition serie_ge (s : list R) (c : R) : list bool :=
  map (fun x => Rleb c x) s.

Definition serie_le (s : list R) (c : R) : list bool :=
  map (fun x => Rleb x c) s.

Definition serie_and (a b : list bool) : list bool :=
  map (fun ab => fst ab && snd ab) (combine a b).

Definition serie_sum (s : list bool) : nat :=
  fold_right (fun (b : bool) acc => ((if b then 1 else 0) + acc)%nat) 0%nat s.

Definition peso_conforme (e : especificacao) (amostra : DataFrame) : list bool :=
  serie_and (serie_ge (coluna peso amostra) (peso_min e))
            (serie_le (coluna peso amostra) (peso_max e)).

Definition dimensao_conforme (e : especificacao) (amostra : DataFrame) : list bool :=
  serie_and (serie_ge (coluna dimensao amostra) (dimensao_min e))
            (serie_le (coluna dimensao amostra) (dimensao_max e)).

(** [pecas_conformes = peso_conforme & dimensao_conforme] *)
Definition pecas_conformes (e : especificacao) (amostra : DataFrame) : list bool :=
  serie_and (peso_conforme e amostra) (dimensao_conforme e amostra).

(** [proporcao_conformes = pecas_conformes.sum() / len(amostra)] *)
Definition proporcao_conformes (e : especificacao) (amostra : DataFrame) : xreal :=
  XR.div (Fin (INR (serie_sum (pecas_conformes e amostra))))
         (Fin (INR (length amostra))).

(** A row within the four bounds, as a proposition. *)
Definition dentro_das_especificacoes (e : especificacao) (r : peca) : Prop :=
  peso_min e <= peso r /\ peso r <= peso_max e /\
  dimensao_min e <= dimensao r /\ dimensao r <= dimensao_max e.

(** The same four checks, decided. *)
Definition conforme (e : especificacao) (r : peca) : bool :=
  Rleb (peso_min e) (peso r) && Rleb (peso r) (peso_max e) &&
  Rleb (dimensao_min e) (dimensao r) && Rleb (dimensao r) (dimensao_max e).

End Conformidade.

(** ** Section 5 of the script: confidence intervals *)

Module Intervalos.

(** A reported interval: the estimate it is built around, the margin of
    error, the bounds. *)
Record intervalo : Type := {
  estimativa : xreal;
  margem_erro : xreal;
  inferior : xreal;
  superior : xreal
}.

(** [erro_padrao = stats['desvio_padrão'] / np.sqrt(len(amostra))] *)
Definition erro_padrao (st : Descritiva.stats_dict) (amostra : DataFrame) : xreal :=
  XR.div (Descritiva.desvio_padrao st) (XR.sqrt (Fin (INR (length amostra)))).

(** The interval of a mean (weight, dimension):
    [margem_erro = t_critico * erro_padrao],
    [ic_inferior = stats['média'] - margem_erro],
    [ic_superior = stats['média'] + margem_erro]. *)
Definition ic_media (t_critico : xreal) (st : Descritiva.stats_dict)
    (amostra : DataFrame) : intervalo :=
  let margem := XR.mul t_critico (erro_padrao st amostra) in
  {| estimativa := Descritiva.media st;
     margem_erro := margem;
     inferior := XR.sub (Descritiva.media st) margem;
     superior := XR.add (Descritiva.media st) margem |}.

(** [erro_padrao_prop = np.sqrt(p_obs * (1 - p_obs) / n)] *)
Definition erro_padrao_prop (p_obs : xreal) (n : nat) : xreal :=
  XR.sqrt (XR.div (XR.mul p_obs (XR.sub (Fin 1) p_obs)) (Fin (INR n))).

(** The interval of the proportion:
    [margem_erro_prop = z_ic * erro_padrao_prop],
    [ic_prop_inferior = max(0, p_obs - margem_erro_prop)],
    [ic_prop_superior = min(1, p_obs + margem_erro_prop)]. *)
Definition ic_prop (z_ic : xreal) (p_obs : xreal) (n : nat) : intervalo :=
  let margem := XR.mul z_ic (erro_padrao_prop p_obs n) in
  {| estimativa := p_obs;
     margem_erro := margem;
     inferior := XR.py_max (Fin 0) (XR.sub p_obs margem);
     superior := XR.py_min (Fin 1) (XR.add p_obs margem) |}.

(** [z_ic = stats.norm.ppf(1 - alpha_ic/2)] *)
Definition z_ic {S : ScipyStats} (alpha_ic : R) : xreal :=
  Fin (norm_ppf (1 - alpha_ic / 2)).

End Intervalos.

(** ** Section 6 of the script: the final decision *)

Module Decisao.

(** [abs(t_stat) <= t_critico]: the entries ['peso_media_ok'] and
    ['dimensao_media_ok']. *)
Definition media_ok (t_stat t_critico : xreal) : bool :=
  XR.le (XR.abs t_stat) t_critico.

(** [p_value_prop >= alpha]: the entry ['conformidade_ok']. *)
Definition conformidade_ok (p_value_prop : xreal) (alpha : R) : bool :=
  XR.ge p_value_prop (Fin alpha).

(** The dict [criterios_aprovacao], in insertion order. *)
Definition criterios_aprovacao (t_stat_peso t_stat_dimensao t_critico
    p_value_prop : xreal) (alpha : R) : list (string * bool) :=
  [ ("peso_media_ok"%string, media_ok t_stat_peso t_critico);
    ("dimensao_media_ok"%string, media_ok t_stat_dimensao t_critico);
    ("conformidade_ok"%string, conformidade_ok p_value_prop alpha) ].

(** Python's [all]. *)
Definition all (l : list bool) : bool := forallb (fun b => b) l.

(** [criterios.values()] *)
Definition values (criterios : list (string * bool)) : list bool :=
  map snd criterios.

(** [todos_criterios_ok = all(criterios_aprovacao.values())] *)
Definition todos_criterios_ok (criterios : list (string * bool)) : bool :=
  all (values criterios).

(** [decisao_final]: ["APROVADO"] if [todos_criterios_ok], else
    ["REPROVADO"]. *)
Definition decisao_final (criterios : list (string * bool)) : string :=
  if todos_criterios_ok criterios then "APROVADO"%string
  else "REPROVADO"%string.

End Decisao.

(** ** The head of the script: optional plotting library and style *)

Module Configuracao.

(** The exceptions the block tells apart: [ModuleNotFoundError] is a
    subclass of [ImportError]; anything else is named. *)
Inductive excecao : Type :=
| ImportError
| ModuleNotFoundError
| OutraExcecao (nome : string).

(** [isinstance(e, ImportError)] *)
Definition e_ImportError (e : excecao) : bool :=
  match e with
  | ImportError | ModuleNotFoundError => true
  | OutraExcecao _ => false
  end.

Inductive resultado (A : Type) : Type :=
| Ok (a : A)
| Raise (e : excecao).

Arguments Ok {A} a.
Arguments Raise {A} e.

(** What the installation answers to the three external calls. *)
Record ambiente : Type := {
  import_seaborn : resultado unit;
  sns_set_palette : string -> resultado unit;
  plt_style_use : string -> resultado unit
}.

(** The part of the interpreter state the block writes: the printed
    lines, the flag [SEABORN_AVAILABLE] (unset at first), the style in
    force. *)
Record estado : Type := {
  saida : list string;
  SEABORN_AVAILABLE : option bool;
  estilo : option string
}.

Definition estado_inicial : estado :=
  {| saida := []; SEABORN_AVAILABLE := None; estilo := None |}.

(** Statements: a state transformer that ends normally or raises. *)
Definition M (A : Type) : Type := estado -> resultado A * estado.

Definition ret {A} (a : A) : M A := fun s => (Ok a, s).

Definition bind {A B} (m : M A) (k : A -> M B) : M B :=
  fun s =>
    match m s with
    | (Ok a, s') => k a s'
    | (Raise e, s') => (Raise e, s')
    end.

Notation "m1 ;; m2" := (bind m1 (fun _ => m2))
  (at level 61, right associativity).

(** [try: corpo / except <apanha>: tratador] *)
Definition try_except {A} (corpo : M A) (apanha : excecao -> bool)
    (tratador : M A) : M A :=
  fun s =>
    match corpo s with
    | (Ok a, s') => (Ok a, s')
    | (Raise e, s') => if apanha e then tratador s' else (Raise e, s')
    end.

(** A bare [except:] catches everything. *)
Definition qualquer (_ : excecao) : bool := true.

Definition chamada (r : resultado unit) : M unit := fun s => (r, s).

Definition print (linha : string) : M unit :=
  fun s => (Ok tt, {| saida := saida s ++ [linha];
                      SEABORN_AVAILABLE := SEABORN_AVAILABLE s;
                      estilo := estilo s |}).

Definition set_SEABORN_AVAILABLE (b : bool) : M unit :=
  fun s => (Ok tt, {| saida := saida s;
                      SEABORN_AVAILABLE := Some b;
                      estilo := estilo s |}).

(** [plt.style.use(nome)]: the style is in force when the call returns. *)
Definition style_use (env : ambiente) (nome : string) : M unit :=
  fun s =>
    match plt_style_use env nome with
    | Ok _ => (Ok tt, {| saida := saida s;
                         SEABORN_AVAILABLE := SEABORN_AVAILABLE s;
                         estilo := Some nome |})
    | Raise e => (Raise e, s)
    end.

(** The two notices. *)
Definition aviso_seaborn : string :=
  "Seaborn não disponível. Usando matplotlib padrão.".

Definition aviso_estilo : string := "Usando estilo padrão do matplotlib".

(** Lines 12-18. *)
Definition bloco_seaborn (env : ambiente) : M unit :=
  try_except
    (chamada (import_seaborn env) ;;
     chamada (sns_set_palette env "husl") ;;
     set_SEABORN_AVAILABLE true)
    e_ImportError
    (print aviso_seaborn ;;
     set_SEABORN_AVAILABLE false).

(** Lines 21-28. *)
Definition bloco_estilo (env : ambiente) : M unit :=
  try_except
    (style_use env "seaborn-v0_8")
    qualquer
    (try_except
       (style_use env "seaborn")
       qualquer
       (style_use env "default" ;;
        print aviso_estilo)).

Definition configuracao (env : ambiente) : M unit :=
  bloco_seaborn env ;; bloco_estilo env.

(** The whole script: the two blocks, then the rest (lines 30-457), which
    holds no [try] statement: whatever it raises is what the script
    raises. *)
Definition script (env : ambiente) (resto : M unit) : M unit :=
  configuracao env ;; resto.

(** The first of the three styles the installation accepts. *)
Definition primeiro_estilo (env : ambiente) : option string :=
  match plt_style_use env "seaborn-v0_8" with
  | Ok _ => Some "seaborn-v0_8"%string
  | Raise _ =>
      match plt_style_use env "seaborn" with
      | Ok _ => Some "seaborn"%string
      | Raise _ =>
          match plt_style_use env "default" with
          | Ok _ => Some "default"%string
          | Raise _ => None
          end
      end
  end.

(** Whether the last resort, the default style, is reached. *)
Definition estilo_padrao_usado (env : ambiente) : bool :=
  match plt_style_use env "seaborn-v0_8", plt_style_use env "seaborn" with
  | Raise _, Raise _ => true
  | _, _ => false
  end.

(** Whether [import seaborn] returns. *)
Definition seaborn_importado (env : ambiente) : bool :=
  match import_seaborn env with
  | Ok _ => true
  | Raise _ => false
  end.

(** An installation without seaborn and without the two seaborn styles. *)
Definition ambiente_minimo : ambiente :=
  {| import_seaborn := Raise ModuleNotFoundError;
     sns_set_palette := fun _ => Ok tt;
     plt_style_use := fun nome =>
       if String.eqb nome "default" then Ok tt
       else Raise (OutraExcecao "OSError") |}.

End Configuracao.

(** ** The constants of the script and its run *)

Module Lote.

(** [size=5000] of the two [np.random.normal] calls. *)
Definition tamanho_populacao : nat := 5000.

Definition especificacoes : especificacao :=
  {| peso_min := 140;
     peso_max := 160;
     dimensao_min := 235 / 10;
     dimensao_max := 265 / 10 |}.

Definition N : Z := 5000.
Definition z : R := 196 / 100.
Definition p : R := 5 / 10.
Definition E : R := 2 / 100.

Definition n_calculado : option R := Amostragem.n_calculado N z p E.
Definition n_amostra : option Z := Amostragem.n_amostra N z p E.

(** [indices_amostra = np.random.choice(len(populacao), size=n_amostra,
    replace=False)] *)
Definition indices_amostra (permutation : list nat) (populacao : DataFrame)
  : option (list nat) :=
  match n_amostra with
  | Some n => Amostragem.choice permutation (length populacao) (Z.to_nat n)
  | None => None
  end.

(** [amostra = populacao.iloc[indices_amostra].copy()] *)
Definition amostra (permutation : list nat) (populacao : DataFrame)
  : option DataFrame :=
  match indices_amostra permutation populacao with
  | Some indices => iloc populacao indices
  | None => None
  end.

Definition peso_target : R := 150.
Definition dimensao_target : R := 25.
Definition alpha : R := 5 / 100.
Definition p0 : R := 95 / 100.
Definition confianca : R := 95 / 100.
Definition alpha_ic : R := 1 - confianca.

Section Analise.

Context {S : ScipyStats}.
Variable amostra : DataFrame.

Definition stats_peso : Descritiva.stats_dict :=
  Descritiva.calcular_estatisticas (coluna peso amostra).

Definition stats_dimensao : Descritiva.stats_dict :=
  Descritiva.calcular_estatisticas (coluna dimensao amostra).

Definition t_stat_peso : xreal :=
  fst (Testes.ttest_1samp (coluna peso amostra) peso_target).


Definition t_stat_dimensao : xreal :=
  fst (Testes.ttest_1samp (coluna dimensao amostra) dimensao_target).


Definition t_critico : xreal := Testes.t_critico alpha amostra.



(** [x = pecas_conformes.sum()] *)
Definition x : nat :=
  Conformidade.serie_sum (Conformidade.pecas_conformes especificacoes amostra).

Definition p_obs : xreal := Testes.p_obs x (length amostra).

Definition p_value_prop : option xreal :=
  Testes.p_value_prop p_obs p0 (length amostra).

Definition ic_peso : Intervalos.intervalo :=
  Intervalos.ic_media t_critico stats_peso amostra.

Definition ic_dimensao : Intervalos.intervalo :=
  Intervalos.ic_media t_critico stats_dimensao amostra.

Definition ic_proporcao : Intervalos.intervalo :=
  Intervalos.ic_prop (Intervalos.z_ic alpha_ic) p_obs (length amostra).

Definition peso_media_ok : bool := Decisao.media_ok t_stat_peso t_critico.

Definition dimensao_media_ok : bool :=
  Decisao.media_ok t_stat_dimensao t_critico.

(** The criteria and the label, once the proportion test has returned. *)
Definition criterios_aprovacao : option (list (string * bool)) :=
  option_map
    (fun pv => Decisao.criterios_aprovacao t_stat_peso t_stat_dimensao
                 t_critico pv alpha)
    p_value_prop.

Definition decisao_final : option string :=
  option_map Decisao.decisao_final criterios_aprovacao.

End Analise.

End Lote.

(** ** Further parts of the script *)

(** The remaining spread entry of [stats_dict] that needs no ordering of
    the series beyond its extremes. *)
Module Extremos.




End Extremos.

(** The proportion test of the run, and whether a reported interval holds
    a value. *)
Module Proporcao.

Section ComBiblioteca.

Context {S : ScipyStats}.
Variable amostra : DataFrame.

(** [z_stat] of the run. *)
Definition z_stat : option xreal :=
  Testes.z_stat (Lote.p_obs amostra) Lote.p0 (length amostra).

(** [decisao_prop]: ["Rejeitamos H0"] if [p_value_prop < alpha], else
    ["Não rejeitamos H0"]. *)
Definition decisao_prop : option string :=
  option_map (fun pv => Testes.decisao pv Lote.alpha)
    (Lote.p_value_prop amostra).

(** [criterios_aprovacao['conformidade_ok']] of the run. *)
Definition conformidade_ok : option bool :=
  option_map (fun pv => Decisao.conformidade_ok pv Lote.alpha)
    (Lote.p_value_prop amostra).

End ComBiblioteca.

(** [inferior <= v <= superior] *)
Definition contem (ic : Intervalos.intervalo) (v : R) : bool :=
  XR.le (Intervalos.inferior ic) (Fin v)
  && XR.le (Fin v) (Intervalos.superior ic).

End Proporcao.

(** The bar chart of the conformity rates (lines 423-425). *)
Module Grafico.

(** The two bound checks on the weight of a row, and on its dimension:
    the entries of [peso_conforme] and [dimensao_conforme], row by row. *)
Definition peso_ok (e : especificacao) (r : peca) : bool :=
  Rleb (peso_min e) (peso r) && Rleb (peso r) (peso_max e).

Definition dimensao_ok (e : especificacao) (r : peca) : bool :=
  Rleb (dimensao_min e) (dimensao r) && Rleb (dimensao r) (dimensao_max e).

(** [serie.mean()] of a boolean series. *)
Definition serie_mean (s : list bool) : xreal :=
  XR.div (Fin (INR (Conformidade.serie_sum s))) (Fin (INR (length s))).

(** [valores = [peso_conforme.mean()*100, dimensao_conforme.mean()*100,
    proporcao_conformes*100]] *)
Definition valores (e : especificacao) (amostra : DataFrame) : list xreal :=
  [ XR.mul (serie_mean (Conformidade.peso_conforme e amostra)) (Fin 100);
    XR.mul (serie_mean (Conformidade.dimensao_conforme e amostra)) (Fin 100);
    XR.mul (Conformidade.proporcao_conformes e amostra) (Fin 100) ].

End Grafico.

(** The printed justification and recommendations (lines 384-409). *)
Module Relatorio.

(** [d[chave]] on a dict: [KeyError] ([None]) on a missing key. *)
Fixpoint dict_get (chave : string) (d : list (string * bool)) : option bool :=
  match d with
  | [] => None
  | (k, v) :: rest => if String.eqb k chave then Some v else dict_get chave rest
  end.

Definition peso_dentro : string :=
  "  • Peso médio está dentro do padrão esperado".
Definition peso_fora : string :=
  "  • Peso médio NÃO está dentro do padrão esperado".
Definition dimensao_dentro : string :=
  "  • Dimensão média está dentro do padrão esperado".
Definition dimensao_fora : string :=
  "  • Dimensão média NÃO está dentro do padrão esperado".
Definition conformidade_atende : string :=
  "  • Taxa de conformidade atende ao mínimo exigido (≥95%)".
Definition conformidade_nao_atende : string :=
  "  • Taxa de conformidade NÃO atende ao mínimo exigido (≥95%)".

(** The three lines after ["JUSTIFICATIVA:"], one per criterion read from
    the dict; no line list when a key is missing. *)
Definition justificativa (criterios : list (string * bool))
  : option (list string) :=
  match dict_get "peso_media_ok" criterios,
        dict_get "dimensao_media_ok" criterios,
        dict_get "conformidade_ok" criterios with
  | Some peso_ok, Some dimensao_ok, Some conf_ok =>
      Some [ if peso_ok then peso_dentro else peso_fora;
             if dimensao_ok then dimensao_dentro else dimensao_fora;
             if conf_ok then conformidade_atende else conformidade_nao_atende ]
  | _, _, _ => None
  end.

Definition recomendacoes_aprovado : list string :=
  [ "  1. O lote pode ser enviado ao cliente";
    "  2. Manter monitoramento contínuo do processo";
    "  3. Arquivar documentação para rastreabilidade" ]%string.

Definition recomendacoes_reprovado : list string :=
  [ "  1. NÃO enviar o lote ao cliente";
    "  2. Investigar causas das não-conformidades";
    "  3. Implementar ações corretivas no processo";
    "  4. Realizar nova amostragem após correções" ]%string.

(** The lines after ["RECOMENDAÇÕES:"]:
    [if decisao_final == "APROVADO": ... else: ...]. *)
Definition recomendacoes (decisao_final : string) : list string :=
  if String.eqb decisao_final "APROVADO" then recomendacoes_aprovado
  else recomendacoes_reprovado.

End Relatorio.

(** ** The sample size in binary64 (lines 77-83) *)

Module Binario64.

(** The conversion of a Python [int] to a [float] in mixed arithmetic:
    rounded to nearest even, [OverflowError] ([None]) beyond the largest
    float. *)
Definition float_of_int (n : Z) : option float :=
  let f := SF2Prim (binary_normalize prec emax n 0 false) in
  if is_infinity f then None else Some f.

(** [int(np.ceil(x))]: [ValueError] or [OverflowError] ([None]) on [nan]
    and on the infinities. *)
Definition int_ceil (x : float) : option Z :=
  match Prim2SF x with
  | S754_zero _ => Some 0%Z
  | S754_finite s m e =>
      if (0 <=? e)%Z then Some (cond_Zopp s (Zpos m * 2 ^ e))%Z
      else if s then Some (- (Zpos m / 2 ^ (- e)))%Z
           else Some (- ((- Zpos m) / 2 ^ (- e)))%Z
  | _ => None
  end.

(** [x ** 2]: the C library's [pow(x, 2.0)], which returns the correctly
    rounded square on the values used below (and on all but rare ones). *)
Definition quadrado (x : float) : float := (x * x)%float.

(** [n_calculado = (z**2 * p * (1-p) * N) / (E**2 * (N-1) + z**2 * p * (1-p))],
    each operation rounded as binary64 does, left to right;
    [ZeroDivisionError] ([None]) on a zero divisor. *)
Definition n_calculado (N : Z) (z p E : float) : option float :=
  match float_of_int N, float_of_int (N - 1) with
  | Some fN, Some fN1 =>
      let num := (quadrado z * p * (1 - p) * fN)%float in
      let den := (quadrado E * fN1 + quadrado z * p * (1 - p))%float in
      if (den =? 0)%float then None else Some (num / den)%float
  | _, _ => None
  end.

(** [n_amostra = int(np.ceil(n_calculado))] *)
Definition n_amostra (N : Z) (z p E : float) : option Z :=
  match n_calculado N z p E with
  | Some q => int_ceil q
  | None => None
  end.

(** The real number a finite float stands for: [(-1)^s * m * 2^e]. *)
Definition SF2R (f : spec_float) : R :=
  match f with
  | S754_finite s m e =>
      let v := if (0 <=? e)%Z then IZR (Zpos m * 2 ^ e)
               else IZR (Zpos m) / IZR (2 ^ (- e)) in
      if s then - v else v
  | _ => 0
  end.

Definition to_R (x : float) : R := SF2R (Prim2SF x).

End Binario64.

(** The constants of lines 77-80 as the floats Python reads them. *)
Module Lote64.

Definition N : Z := 5000.
(** [1.96] *)
Definition z : float := 0x1.f5c28f5c28f5cp+0.
(** [0.5] *)
Definition p : float := 0x1p-1.
(** [0.02] *)
Definition E : float := 0x1.47ae147ae147bp-6.

Definition n_calculado : option float := Binario64.n_calculado N z p E.
Definition n_amostra : option Z := Binario64.n_amostra N z p E.

(** [1e-10], a margin of error for the examples. *)
Definition E_minusculo : float := 0x1.b7cdfd9d7bdbbp-34.

End Lote64.

(** ** Sample data for the examples *)


(** Two parts around the targets. *)
Definition amostra_em_torno : DataFrame :=
  [ {| peso := 149; dimensao := 24 |};
    {| peso := 151; dimensao := 26 |} ].


(** ** Auxiliary facts on real division *)

Lemma div_le_iff (a b d : R) : 0 < d -> (a / d <= b <-> a <= b * d).
Proof.
  intros Hd. split; intros H.
  - apply (Rmult_le_reg_r (/ d)); [apply Rinv_0_lt_compat; exact Hd|].
    rewrite Rmult_assoc, Rinv_r, Rmult_1_r by lra. exact H.
  - apply (Rmult_le_reg_r d); [exact Hd|].
    unfold Rdiv. rewrite Rmult_assoc, Rinv_l, Rmult_1_r by lra. exact H.
Qed.

Lemma div_nonneg (a d : R) : 0 <= a -> 0 < d -> 0 <= a / d.
Proof.
  intros Ha Hd. unfold Rdiv. apply Rmult_le_pos; [exact Ha|].
  left. apply Rinv_0_lt_compat. exact Hd.
Qed.

(** ** Facts about the sample size *)

Section SampleSizeFacts.

Import Amostragem.

Variables (N : Z) (z p E : R).
Hypothesis HN : (1 < N)%Z.
Hypothesis Hz : 0 < z.
Hypothesis Hp : 0 < p < 1.
Hypothesis HE : 0 < E.

Let A := z ^ 2 * p * (1 - p).
Let D := E ^ 2 * (IZR N - 1) + A.
Let nc := A * IZR N / D.

Lemma IZR_N_gt_1 : 1 < IZR N.
Proof. apply (IZR_lt 1). exact HN. Qed.

Lemma A_pos : 0 < A.
Proof.
  unfold A. destruct Hp as [Hp0 Hp1].
  assert (0 < z ^ 2) by (apply pow_lt; exact Hz).
  assert (0 < p * (1 - p)) by (apply Rmult_lt_0_compat; lra).
  rewrite Rmult_assoc. apply Rmult_lt_0_compat; assumption.
Qed.

Lemma D_pos : 0 < D.
Proof.
  unfold D. pose proof A_pos. pose proof IZR_N_gt_1.
  assert (0 < E ^ 2) by (apply pow_lt; exact HE).
  assert (0 < E ^ 2 * (IZR N - 1)) by (apply Rmult_lt_0_compat; lra).
  lra.
Qed.

(** The division does not raise. *)
Lemma n_calculado_some : n_calculado N z p E = Some nc.
Proof.
  unfold n_calculado, py_div, Reqb. fold A. fold D.
  destruct (Req_dec_T D 0) as [H0|_]; [|reflexivity].
  pose proof D_pos. lra.
Qed.

Lemma n_amostra_some : n_amostra N z p E = Some (Zceil nc).
Proof. unfold n_amostra. rewrite n_calculado_some. reflexivity. Qed.

Lemma nc_pos : 0 < nc.
Proof.
  unfold nc. pose proof A_pos. pose proof D_pos. pose proof IZR_N_gt_1.
  apply Rdiv_lt_0_compat; [apply Rmult_lt_0_compat; lra | assumption].
Qed.

Lemma nc_le_N : nc <= IZR N.
Proof.
  unfold nc. pose proof A_pos. pose proof D_pos. pose proof IZR_N_gt_1.
  apply div_le_iff; [assumption|].
  unfold D. assert (0 <= E ^ 2 * (IZR N - 1) * IZR N).
  { apply Rmult_le_pos; [apply Rmult_le_pos|]; try lra.
    apply pow_le; lra. }
  lra.
Qed.

(** The ceiling lies in [1, N]. *)
Lemma Zceil_nc_range : (1 <= Zceil nc <= N)%Z.
Proof.
  pose proof (Zceil_bound nc) as [Hlo Hhi].
  pose proof nc_pos. pose proof nc_le_N as HleN.
  split.
  - assert (0 < IZR (Zceil nc)) as H0 by lra.
    apply lt_IZR in H0. lia.
  - assert (IZR (Zceil nc) < IZR (N + 1)) as H1 by (rewrite plus_IZR; lra).
    apply lt_IZR in H1. lia.
Qed.

(** For a sample size between 1 and N, meeting the margin is the same as
    being at least the exact quotient. *)
Lemma satisfaz_margem_iff (m : Z) :
  (1 <= m <= N)%Z ->
  satisfaz_margem N z p E m <-> nc <= IZR m.
Proof.
  intros [Hm1 HmN].
  apply IZR_le in Hm1, HmN.
  pose proof A_pos as HA. pose proof D_pos as HD. pose proof IZR_N_gt_1 as HN1.
  unfold satisfaz_margem, margem_implicita.
  set (x := p * (1 - p) / IZR m * ((IZR N - IZR m) / (IZR N - 1))).
  assert (Hx : 0 <= x).
  { unfold x. destruct Hp. apply Rmult_le_pos.
    - apply div_nonneg; [apply Rmult_le_pos; lra | lra].
    - apply div_nonneg; lra. }
  assert (Hzx : z ^ 2 * x * (IZR m * (IZR N - 1)) = A * (IZR N - IZR m)).
  { unfold x, A. field. lra. }
  assert (Hs := sqrt_sqrt x Hx). assert (Hs0 := sqrt_pos x).
  unfold nc.
  assert (Hmpos : 0 < IZR m * (IZR N - 1)) by (apply Rmult_lt_0_compat; lra).
  split.
  - intros Hle. apply div_le_iff; [assumption|].
    assert (Hsq : z ^ 2 * x <= E ^ 2).
    { rewrite <- Hs.
      replace (z ^ 2 * (sqrt x * sqrt x)) with ((z * sqrt x) ^ 2) by ring.
      apply pow_incr. split; [apply Rmult_le_pos; lra | exact Hle]. }
    apply (Rmult_le_compat_r (IZR m * (IZR N - 1))) in Hsq; [|lra].
    rewrite Hzx in Hsq. unfold D. lra.
  - intros Hle. apply div_le_iff in Hle; [|assumption].
    assert (Hsq : z ^ 2 * x <= E ^ 2).
    { apply (Rmult_le_reg_r (IZR m * (IZR N - 1))); [assumption|].
      rewrite Hzx. unfold D in Hle. lra. }
    destruct (Rle_lt_dec (z * sqrt x) E) as [|Hgt]; [assumption|exfalso].
    assert (E ^ 2 < (z * sqrt x) ^ 2).
    { simpl. rewrite !Rmult_1_r. apply Rmult_le_0_lt_compat; lra. }
    replace ((z * sqrt x) ^ 2) with (z ^ 2 * (sqrt x * sqrt x)) in H by ring.
    rewrite Hs in H. lra.
Qed.

(** The ceiling meets the margin, and no smaller sample size does. *)
Lemma Zceil_nc_minimal :
  satisfaz_margem N z p E (Zceil nc) /\
  forall m : Z, (1 <= m < Zceil nc)%Z -> ~ satisfaz_margem N z p E m.
Proof.
  pose proof (Zceil_bound nc) as [Hlo Hhi].
  pose proof Zceil_nc_range as [H1 HN'].
  split.
  - apply satisfaz_margem_iff; [lia | exact Hhi].
  - intros m [Hm1 Hmn] Hsat.
    apply satisfaz_margem_iff in Hsat; [|lia].
    assert (IZR m <= IZR (Zceil nc - 1)) as Hle by (apply IZR_le; lia).
    rewrite minus_IZR in Hle. lra.
Qed.

End SampleSizeFacts.

(** The formula over exact reals.  For a population size N > 1, z > 0,
    0 < p < 1 and E > 0, the exact quotient is
    (z^2 p (1-p) N) / (E^2 (N-1) + z^2 p (1-p)), its ceiling lies between
    1 and N, meets the margin-of-error constraint, and no smaller sample
    size (from 1 up) meets it.  (What binary64 makes of it is in the last
    part of the file.) *)
Theorem sample_size_is_minimal (N : Z) (z p E : R) :
  (1 < N)%Z -> 0 < z -> 0 < p < 1 -> 0 < E ->
  let q := (z ^ 2 * p * (1 - p) * IZR N)
           / (E ^ 2 * (IZR N - 1) + z ^ 2 * p * (1 - p)) in
  Amostragem.n_calculado N z p E = Some q /\
  Amostragem.n_amostra N z p E = Some (Zceil q) /\
  (1 <= Zceil q <= N)%Z /\
  Amostragem.satisfaz_margem N z p E (Zceil q) /\
  forall m : Z, (1 <= m < Zceil q)%Z -> ~ Amostragem.satisfaz_margem N z p E m.
Proof.
  intros HN Hz Hp HE q.
  split; [exact (n_calculado_some N z p E HN Hz Hp HE)|].
  split; [exact (n_amostra_some N z p E HN Hz Hp HE)|].
  split; [exact (Zceil_nc_range N z p E HN Hz Hp HE)|].
  exact (Zceil_nc_minimal N z p E HN Hz Hp HE).
Qed.

(** The script's constants meet the hypotheses above: the quotient is
    480200/296 = 1622.29..., its ceiling 1623. *)
Lemma Lote_n_calculado : Lote.n_calculado = Some (480200 / 296).
Proof.
  unfold Lote.n_calculado.
  rewrite (n_calculado_some Lote.N Lote.z Lote.p Lote.E);
    unfold Lote.N, Lote.z, Lote.p, Lote.E; try lia; try lra.
  f_equal. field.
Qed.

Lemma Lote_n_amostra : Lote.n_amostra = Some 1623%Z.
Proof.
  unfold Lote.n_amostra, Amostragem.n_amostra.
  change (Amostragem.n_calculado Lote.N Lote.z Lote.p Lote.E)
    with Lote.n_calculado.
  rewrite Lote_n_calculado. simpl. f_equal.
  apply Zceil_eq. lra.
Qed.

(** ** Facts about the draw *)

Section DrawFacts.

Import Amostragem.





End DrawFacts.

(** C8.  With the constants of the script (N = 5000, z = 1.96, p = 0.5,
    E = 0.02) the sample size is a number n with 1 <= n <= N (it is
    1623), so the draw of n positions out of the 5000 of the population
    does not raise. *)
Theorem lote_sample_size_in_range :
  exists n : Z,
    Lote.n_amostra = Some n /\
    n = 1623%Z /\
    (1 <= n <= Lote.N)%Z /\
    forall (permutation : list nat) (populacao : DataFrame),
      length populacao = Lote.tamanho_populacao ->
      Lote.indices_amostra permutation populacao
      = Some (firstn (Z.to_nat n) permutation).
Proof.
  exists 1623%Z. split; [exact Lote_n_amostra|].
  split; [reflexivity|]. split; [unfold Lote.N; lia|].
  intros permutation populacao Hlen.
  unfold Lote.indices_amostra. rewrite Lote_n_amostra.
  unfold Amostragem.choice. rewrite Hlen. unfold Lote.tamanho_populacao.
  replace (Z.to_nat 1623 <=? 5000)%nat with true; [reflexivity|].
  symmetry. apply Nat.leb_le. lia.
Qed.


(** ** Facts about comparisons and extended reals *)

Lemma Rleb_true_iff (a b : R) : Rleb a b = true <-> a <= b.
Proof.
  unfold Rleb. destruct (Rle_dec a b) as [H|H]; split; intros H';
    try reflexivity; try assumption; try discriminate; contradiction.
Qed.

Lemma Rleb_false_iff (a b : R) : Rleb a b = false <-> b < a.
Proof.
  unfold Rleb. destruct (Rle_dec a b) as [H|H]; split; intros H';
    try reflexivity; try discriminate; lra.
Qed.

Lemma Rltb_true_iff (a b : R) : Rltb a b = true <-> a < b.
Proof.
  unfold Rltb. destruct (Rlt_dec a b) as [H|H]; split; intros H';
    try reflexivity; try assumption; try discriminate; contradiction.
Qed.

Lemma Rltb_false_iff (a b : R) : Rltb a b = false <-> b <= a.
Proof.
  unfold Rltb. destruct (Rlt_dec a b) as [H|H]; split; intros H';
    try reflexivity; try discriminate; lra.
Qed.

Lemma Reqb_true_iff (a b : R) : Reqb a b = true <-> a = b.
Proof.
  unfold Reqb. destruct (Req_dec_T a b) as [H|H]; split; intros H';
    try reflexivity; try assumption; try discriminate; contradiction.
Qed.

Lemma Reqb_false_iff (a b : R) : Reqb a b = false <-> a <> b.
Proof.
  unfold Reqb. destruct (Req_dec_T a b) as [H|H]; split; intros H';
    try reflexivity; try assumption; try discriminate; contradiction.
Qed.

Lemma XR_div_fin (x y : R) : y <> 0 -> XR.div (Fin x) (Fin y) = Fin (x / y).
Proof.
  intros Hy. simpl. apply Reqb_false_iff in Hy. rewrite Hy. reflexivity.
Qed.

Lemma XR_div_zero_zero : XR.div (Fin 0) (Fin 0) = NaN.
Proof.
  simpl. assert (H : Reqb 0 0 = true) by (apply Reqb_true_iff; reflexivity).
  rewrite H. reflexivity.
Qed.

Lemma XR_sqrt_fin (x : R) : 0 <= x -> XR.sqrt (Fin x) = Fin (sqrt x).
Proof.
  intros Hx. simpl. apply Rltb_false_iff in Hx. rewrite Hx. reflexivity.
Qed.

(** Settles the comparisons between numerals in the goal. *)
Ltac decide_cmp :=
  repeat match goal with
    | |- context [Rleb ?a ?b] =>
        first [ rewrite (proj2 (Rleb_true_iff a b)) by lra
              | rewrite (proj2 (Rleb_false_iff a b)) by lra ]
    | |- context [Rltb ?a ?b] =>
        first [ rewrite (proj2 (Rltb_true_iff a b)) by lra
              | rewrite (proj2 (Rltb_false_iff a b)) by lra ]
    | |- context [Reqb ?a ?b] =>
        first [ rewrite (proj2 (Reqb_true_iff a b)) by lra
              | rewrite (proj2 (Reqb_false_iff a b)) by lra ]
    end.

Example div_one_by_zero : XR.div (Fin 1) (Fin 0) = PInf.
Proof. cbn [XR.div]. decide_cmp. reflexivity. Qed.

Example sqrt_of_negative : XR.sqrt (Fin (-1)) = NaN.
Proof. cbn [XR.sqrt]. decide_cmp. reflexivity. Qed.

Example max_zero_nan : XR.py_max (Fin 0) NaN = Fin 0.
Proof. reflexivity. Qed.

Example nan_is_not_below : XR.lt NaN (Fin 1) = false /\ XR.le NaN NaN = false.
Proof. split; reflexivity. Qed.

(** ** Facts about conformity *)

Section ConformityFacts.

Import Conformidade.

Variable e : especificacao.

Lemma conforme_iff (r : peca) :
  conforme e r = true <-> dentro_das_especificacoes e r.
Proof.
  unfold conforme, dentro_das_especificacoes.
  rewrite !andb_true_iff, !Rleb_true_iff. tauto.
Qed.

(** The mask the script builds column by column is the row-wise check. *)
Lemma pecas_conformes_map (amostra : DataFrame) :
  pecas_conformes e amostra = map (conforme e) amostra.
Proof.
  unfold pecas_conformes, peso_conforme, dimensao_conforme, serie_and,
    serie_ge, serie_le, coluna.
  induction amostra as [|r rest IH]; [reflexivity|].
  simpl. rewrite IH. f_equal.
  unfold conforme. rewrite !andb_assoc. reflexivity.
Qed.

Lemma serie_sum_map_filter {A} (f : A -> bool) (l : list A) :
  serie_sum (map f l) = length (filter f l).
Proof.
  induction l as [|a rest IH]; [reflexivity|].
  simpl. rewrite IH. destruct (f a); reflexivity.
Qed.

End ConformityFacts.

(** C3.  The conformity proportion is the number of sample rows that pass
    all four bound checks (weight within [peso_min, peso_max] and
    dimension within [dimensao_min, dimensao_max], bounds included),
    divided by the sample size. *)
Theorem conformity_proportion_counts_rows (e : especificacao) (amostra : DataFrame) :
  (forall r : peca,
     Conformidade.conforme e r = true <->
     peso_min e <= peso r /\ peso r <= peso_max e /\
     dimensao_min e <= dimensao r /\ dimensao r <= dimensao_max e) /\
  Conformidade.proporcao_conformes e amostra
  = XR.div (Fin (INR (length (filter (Conformidade.conforme e) amostra))))
           (Fin (INR (length amostra))).
Proof.
  split.
  - intros r. apply conforme_iff.
  - unfold Conformidade.proporcao_conformes.
    rewrite pecas_conformes_map, serie_sum_map_filter. reflexivity.
Qed.

(** One part inside the specification, one too heavy: half conform. *)
Example proporcao_conformes_metade :
  Conformidade.proporcao_conformes Lote.especificacoes
    [ {| peso := 150; dimensao := 25 |}; {| peso := 170; dimensao := 25 |} ]
  = Fin (1 / 2).
Proof.
  unfold Conformidade.proporcao_conformes. rewrite pecas_conformes_map.
  unfold Conformidade.conforme, Lote.especificacoes. simpl.
  decide_cmp. reflexivity.
Qed.

(** ** Facts about the decision *)

Lemma all_three (a b c : bool) : Decisao.all [a; b; c] = a && b && c.
Proof. unfold Decisao.all. simpl. destruct a, b, c; reflexivity. Qed.

(** C2.  The label of the lot is "APROVADO" when the weight criterion
    (|t_stat_peso| <= t_critico), the dimension criterion
    (|t_stat_dimensao| <= t_critico) and the conformity criterion
    (p_value_prop >= alpha) all hold, and "REPROVADO" otherwise; the dict
    holds these three booleans and nothing else, so the label is a
    function of them alone. *)
Theorem final_decision_is_conjunction
    (t_stat_peso t_stat_dimensao t_critico p_value_prop : xreal) (alpha : R) :
  let criterios :=
    Decisao.criterios_aprovacao t_stat_peso t_stat_dimensao t_critico
      p_value_prop alpha in
  let peso_ok := XR.le (XR.abs t_stat_peso) t_critico in
  let dimensao_ok := XR.le (XR.abs t_stat_dimensao) t_critico in
  let conf_ok := XR.ge p_value_prop (Fin alpha) in
  Decisao.values criterios = [peso_ok; dimensao_ok; conf_ok] /\
  Decisao.todos_criterios_ok criterios = peso_ok && dimensao_ok && conf_ok /\
  Decisao.decisao_final criterios
  = (if peso_ok && dimensao_ok && conf_ok
     then "APROVADO" else "REPROVADO")%string /\
  (Decisao.decisao_final criterios = "APROVADO"%string <->
   peso_ok = true /\ dimensao_ok = true /\ conf_ok = true) /\
  (Decisao.decisao_final criterios = "REPROVADO"%string <->
   peso_ok = false \/ dimensao_ok = false \/ conf_ok = false).
Proof.
  intros criterios peso_ok dimensao_ok conf_ok.
  assert (Hv : Decisao.values criterios = [peso_ok; dimensao_ok; conf_ok])
    by reflexivity.
  assert (Ht : Decisao.todos_criterios_ok criterios
               = peso_ok && dimensao_ok && conf_ok).
  { unfold Decisao.todos_criterios_ok. rewrite Hv. apply all_three. }
  assert (Hd : Decisao.decisao_final criterios
               = (if peso_ok && dimensao_ok && conf_ok
                  then "APROVADO" else "REPROVADO")%string).
  { unfold Decisao.decisao_final. rewrite Ht. reflexivity. }
  split; [exact Hv|]. split; [exact Ht|]. split; [exact Hd|].
  rewrite Hd. clear Hv Ht Hd.
  destruct peso_ok, dimensao_ok, conf_ok; simpl; split; split;
    intros H; try discriminate; try reflexivity; try tauto;
    try (destruct H as [H1 [H2 H3]]; discriminate);
    try (destruct H as [H|[H|H]]; discriminate).
Qed.

(** The label of the run, from the criteria of the run. *)
Lemma lote_decisao_final `{ScipyStats} (amostra : DataFrame) :
  Lote.decisao_final amostra
  = option_map
      (fun pv =>
         if Lote.peso_media_ok amostra && Lote.dimensao_media_ok amostra
            && Decisao.conformidade_ok pv Lote.alpha
         then "APROVADO"%string else "REPROVADO"%string)
      (Lote.p_value_prop amostra).
Proof.
  unfold Lote.decisao_final, Lote.criterios_aprovacao.
  destruct (Lote.p_value_prop amostra) as [pv|]; [|reflexivity].
  simpl. unfold Decisao.decisao_final, Decisao.todos_criterios_ok,
    Decisao.values, Decisao.criterios_aprovacao. cbn [map snd].
  rewrite all_three. reflexivity.
Qed.

(** ** Facts about the descriptive statistics and the t test *)

Section StatisticsFacts.

Import Descritiva Testes.

Lemma soma_squares_nonneg (m : R) (l : list R) :
  0 <= soma (map (fun x => (x - m) ^ 2) l).
Proof.
  unfold soma. induction l as [|a rest IH]; cbn [map fold_right]; [lra|].
  pose proof (pow2_ge_0 (a - m)). lra.
Qed.

Lemma soma_quadrados_nonneg (dados : list R) : 0 <= soma_quadrados dados.
Proof. unfold soma_quadrados. apply soma_squares_nonneg. Qed.

Lemma mean_fin (dados : list R) :
  dados <> [] -> mean dados = Fin (soma dados / INR (length dados)).
Proof.
  intros Hne. unfold mean. apply XR_div_fin. apply not_0_INR.
  destruct dados; [contradiction | discriminate].
Qed.

Lemma var_fin (dados : list R) :
  (2 <= length dados)%nat ->
  var dados 1 = Fin (soma_quadrados dados / (INR (length dados) - 1)).
Proof.
  intros Hn. unfold var.
  destruct (Nat.leb_spec (length dados) 1) as [H|H]; [lia|]. reflexivity.
Qed.

Lemma var_small (dados : list R) :
  (length dados <= 1)%nat -> var dados 1 = NaN.
Proof.
  intros Hn. unfold var.
  destruct (Nat.leb_spec (length dados) 1) as [H|H]; [reflexivity|lia].
Qed.

(** numpy's variance and pandas' agree on every series. *)
Lemma np_var_eq_var `{ScipyStats} (dados : list R) :
  np_var dados 1 = var dados 1.
Proof.
  destruct (Nat.leb_spec (length dados) 1) as [Hn|Hn].
  - rewrite (var_small dados Hn). unfold np_var.
    destruct dados as [|a [|b rest]]; simpl in Hn; try lia.
    + unfold soma_quadrados. simpl. apply XR_div_zero_zero.
    + unfold soma_quadrados. simpl.
      replace ((a - (a + 0) / 1) * ((a - (a + 0) / 1) * 1) + 0) with 0
        by (field).
      apply XR_div_zero_zero.
  - rewrite (var_fin dados) by lia. unfold np_var.
    assert (Hm : INR (length dados - 1) = INR (length dados) - 1).
    { rewrite minus_INR by lia. reflexivity. }
    rewrite Hm. apply XR_div_fin.
    pose proof (lt_1_INR (length dados) Hn). lra.
Qed.

Lemma XR_div_NaN_r (a : xreal) : XR.div a NaN = NaN.
Proof. destruct a; reflexivity. Qed.

(** With fewer than two values the statistic is [nan]. *)
Lemma ttest_small `{ScipyStats} (a : list R) (popmean : R) :
  (length a <= 1)%nat -> fst (ttest_1samp a popmean) = NaN.
Proof.
  intros Hn. unfold ttest_1samp. simpl.
  rewrite np_var_eq_var, (var_small a Hn). simpl.
  apply XR_div_NaN_r.
Qed.

(** With two values or more, the statistic is the quotient of two numbers:
    the deviation of the mean and the square root of variance over n. *)
Lemma ttest_large `{ScipyStats} (a : list R) (popmean : R) :
  (2 <= length a)%nat ->
  fst (ttest_1samp a popmean)
  = XR.div (Fin (soma a / INR (length a) - popmean))
           (Fin (sqrt (soma_quadrados a / (INR (length a) - 1)
                       / INR (length a)))).
Proof.
  intros Hn. unfold ttest_1samp. simpl.
  rewrite np_var_eq_var, (var_fin a Hn).
  assert (Hne : a <> []) by (destruct a; [simpl in Hn; lia | discriminate]).
  rewrite (mean_fin a Hne).
  pose proof (lt_1_INR (length a) Hn) as Hlt.
  rewrite XR_div_fin by lra.
  rewrite XR_sqrt_fin.
  - reflexivity.
  - apply div_nonneg; [|lra]. apply div_nonneg; [|lra].
    apply soma_quadrados_nonneg.
Qed.

(** The standard deviation of two values or more is a number. *)
Lemma std_fin (dados : list R) :
  (2 <= length dados)%nat ->
  std dados 1 = Fin (sqrt (soma_quadrados dados / (INR (length dados) - 1))).
Proof.
  intros Hn. unfold std. rewrite (var_fin dados Hn).
  apply XR_sqrt_fin. pose proof (lt_1_INR (length dados) Hn).
  apply div_nonneg; [apply soma_quadrados_nonneg | lra].
Qed.

(** The statistic against its recomputation from ['média'],
    ['desvio_padrão'] and ['n']. *)
Lemma ttest_recomputed `{ScipyStats} (dados : list R) (popmean : R) :
  (2 <= length dados)%nat ->
  desvio_padrao (calcular_estatisticas dados) <> Fin 0 ->
  exists mean std : R,
    media (calcular_estatisticas dados) = Fin mean /\
    desvio_padrao (calcular_estatisticas dados) = Fin std /\
    0 < std /\
    fst (ttest_1samp dados popmean)
    = Fin ((mean - popmean)
           / (std / sqrt (INR (n (calcular_estatisticas dados))))) /\
    fst (ttest_1samp dados popmean)
    = XR.div (XR.sub (media (calcular_estatisticas dados)) (Fin popmean))
        (XR.div (desvio_padrao (calcular_estatisticas dados))
           (XR.sqrt (Fin (INR (n (calcular_estatisticas dados)))))).
Proof.
  intros Hn Hstd.
  change (desvio_padrao (calcular_estatisticas dados)) with (std dados 1) in *.
  change (media (calcular_estatisticas dados)) with (mean dados).
  change (n (calcular_estatisticas dados)) with (length dados).
  assert (Hne : dados <> [])
    by (destruct dados; [simpl in Hn; lia | discriminate]).
  pose proof (lt_1_INR (length dados) Hn) as Hlt.
  set (v := soma_quadrados dados / (INR (length dados) - 1)).
  assert (Hv0 : 0 <= v).
  { apply div_nonneg; [apply soma_quadrados_nonneg | lra]. }
  rewrite (std_fin dados Hn) in *. fold v in Hstd |- *.
  assert (Hs : 0 < sqrt v).
  { destruct (sqrt_pos v) as [Hp|Hz]; [exact Hp|].
    exfalso. apply Hstd. rewrite <- Hz. reflexivity. }
  assert (Hsn : 0 < sqrt (INR (length dados))) by (apply sqrt_lt_R0; lra).
  assert (Hq : sqrt (v / INR (length dados)) = sqrt v / sqrt (INR (length dados))).
  { apply sqrt_div; lra. }
  assert (Hqpos : 0 < sqrt v / sqrt (INR (length dados)))
    by (apply Rdiv_lt_0_compat; assumption).
  exists (soma dados / INR (length dados)), (sqrt v).
  rewrite (mean_fin dados Hne).
  split; [reflexivity|]. split; [reflexivity|]. split; [exact Hs|].
  rewrite (ttest_large dados popmean Hn). fold v. rewrite Hq.
  split.
  - apply XR_div_fin. lra.
  - rewrite (XR_sqrt_fin (INR (length dados))) by lra.
    rewrite (XR_div_fin (sqrt v)) by lra.
    reflexivity.
Qed.

End StatisticsFacts.

(** C6.  For a sample of two rows or more whose weight has a nonzero
    sample standard deviation, the statistic the library returns for the
    weight test is the number (mean - 150) / (std / sqrt(n)) recomputed from
    the entries 'média', 'desvio_padrão' (ddof=1) and 'n' of the weight
    statistics. *)
Theorem t_statistic_matches_recomputation
    (S : ScipyStats) (amostra : DataFrame) :
  (2 <= length amostra)%nat ->
  Descritiva.desvio_padrao (Lote.stats_peso amostra) <> Fin 0 ->
  exists mean std : R,
    Descritiva.media (Lote.stats_peso amostra) = Fin mean /\
    Descritiva.desvio_padrao (Lote.stats_peso amostra) = Fin std /\
    0 < std /\
    Lote.t_stat_peso amostra
    = Fin ((mean - 150)
           / (std / sqrt (INR (Descritiva.n (Lote.stats_peso amostra))))) /\
    Lote.t_stat_peso amostra
    = XR.div
        (XR.sub (Descritiva.media (Lote.stats_peso amostra)) (Fin 150))
        (XR.div (Descritiva.desvio_padrao (Lote.stats_peso amostra))
           (XR.sqrt (Fin (INR (Descritiva.n (Lote.stats_peso amostra)))))).
Proof.
  intros Hn Hstd.
  unfold Lote.t_stat_peso, Lote.stats_peso in *.
  apply ttest_recomputed.
  - unfold coluna. rewrite length_map. exact Hn.
  - exact Hstd.
Qed.

(** ** Facts about the decision of a t test *)



Section TTestDecision.

Import Descritiva Testes.

Context {S : ScipyStats}.

(** What the tests need of Student's t: for each positive number of
    degrees of freedom the cdf is strictly increasing, and the ppf inverts
    it on (0, 1). *)
Hypothesis t_cdf_increasing :
  forall (df : Z) (a b : R), (0 < df)%Z -> a < b -> t_cdf df a < t_cdf df b.
Hypothesis t_cdf_ppf :
  forall (df : Z) (q : R), (0 < df)%Z -> 0 < q < 1 -> t_cdf df (t_ppf df q) = q.





End TTestDecision.

(** The Cauchy functions meet what the tests need of Student's t. *)
Lemma cauchy_cdf_increasing (a b : R) : a < b -> cauchy_cdf a < cauchy_cdf b.
Proof.
  intros Hab. unfold cauchy_cdf.
  pose proof PI_RGT_0 as Hpi. pose proof (atan_increasing a b Hab) as Hat.
  assert (atan a / PI < atan b / PI).
  { unfold Rdiv. apply Rmult_lt_compat_r; [apply Rinv_0_lt_compat; lra|exact Hat]. }
  lra.
Qed.



(** ** The t test on the sample data *)






Lemma std_two_apart (a b : R) : a <> b -> Descritiva.std [a; b] 1 <> Fin 0.
Proof.
  intros Hab. rewrite std_fin by (simpl; lia).
  intros Heq. injection Heq as Heq.
  assert (Hss : Descritiva.soma_quadrados [a; b] = (a - b) ^ 2 / 2).
  { unfold Descritiva.soma_quadrados, Descritiva.soma. simpl. field. }
  rewrite Hss in Heq. simpl in Heq.
  assert (Hpos : 0 < (a - b) * ((a - b) * 1) / 2 / (1 + 1 - 1)).
  { assert (0 < (a - b) * (a - b)) by nra. 
    replace ((a - b) * ((a - b) * 1) / 2 / (1 + 1 - 1))
      with ((a - b) * (a - b) / 2) by field. lra. }
  apply sqrt_lt_R0 in Hpos. lra.
Qed.



(** ** The theorems on the script's data *)

(** The exact formula on the constants of the script. *)
Lemma sample_size_is_minimal_witness :
  let q := ((196 / 100) ^ 2 * (5 / 10) * (1 - 5 / 10) * IZR 5000)
           / ((2 / 100) ^ 2 * (IZR 5000 - 1)
              + (196 / 100) ^ 2 * (5 / 10) * (1 - 5 / 10)) in
  Amostragem.n_calculado 5000 (196 / 100) (5 / 10) (2 / 100) = Some q /\
  Amostragem.n_amostra 5000 (196 / 100) (5 / 10) (2 / 100) = Some (Zceil q) /\
  (1 <= Zceil q <= 5000)%Z /\
  Amostragem.satisfaz_margem 5000 (196 / 100) (5 / 10) (2 / 100) (Zceil q) /\
  forall m : Z,
    (1 <= m < Zceil q)%Z ->
    ~ Amostragem.satisfaz_margem 5000 (196 / 100) (5 / 10) (2 / 100) m.
Proof.
  apply (sample_size_is_minimal 5000 (196 / 100) (5 / 10) (2 / 100));
    [lia | lra | lra | lra].
Defined.


(** C6 on two parts around the targets. *)
Lemma t_statistic_matches_recomputation_witness :
  exists mean std : R,
    Descritiva.media (Lote.stats_peso amostra_em_torno) = Fin mean /\
    Descritiva.desvio_padrao (Lote.stats_peso amostra_em_torno) = Fin std /\
    0 < std /\
    @Lote.t_stat_peso biblioteca_t1 amostra_em_torno
    = Fin ((mean - 150)
           / (std / sqrt (INR (Descritiva.n (Lote.stats_peso amostra_em_torno)))))
    /\
    @Lote.t_stat_peso biblioteca_t1 amostra_em_torno
    = XR.div
        (XR.sub (Descritiva.media (Lote.stats_peso amostra_em_torno)) (Fin 150))
        (XR.div (Descritiva.desvio_padrao (Lote.stats_peso amostra_em_torno))
           (XR.sqrt
              (Fin (INR (Descritiva.n (Lote.stats_peso amostra_em_torno)))))).
Proof.
  apply (t_statistic_matches_recomputation biblioteca_t1 amostra_em_torno).
  - simpl. lia.
  - change (Descritiva.std [149; 151] 1 <> Fin 0).
    apply std_two_apart. lra.
Defined.

(** ** Facts about the confidence intervals *)

Section IntervalFacts.

Import Intervalos.

Lemma py_max_fin (x y : R) : XR.py_max (Fin x) (Fin y) = Fin (Rmax x y).
Proof.
  unfold XR.py_max. cbn [XR.lt]. unfold Rltb, Rmax.
  destruct (Rlt_dec x y), (Rle_dec x y); try reflexivity; try lra.
  f_equal. lra.
Qed.

Lemma py_min_fin (x y : R) : XR.py_min (Fin x) (Fin y) = Fin (Rmin x y).
Proof.
  unfold XR.py_min. cbn [XR.lt]. unfold Rltb, Rmin.
  destruct (Rlt_dec y x), (Rle_dec x y); try reflexivity; try lra.
Qed.

Lemma ic_prop_inferior (z_ic p_obs : xreal) (n : nat) :
  inferior (ic_prop z_ic p_obs n)
  = XR.py_max (Fin 0) (XR.sub p_obs (margem_erro (ic_prop z_ic p_obs n))).
Proof. reflexivity. Qed.

Lemma ic_prop_superior (z_ic p_obs : xreal) (n : nat) :
  superior (ic_prop z_ic p_obs n)
  = XR.py_min (Fin 1) (XR.add p_obs (margem_erro (ic_prop z_ic p_obs n))).
Proof. reflexivity. Qed.

Lemma ic_prop_margem (z_ic p_obs : xreal) (n : nat) :
  margem_erro (ic_prop z_ic p_obs n)
  = XR.mul z_ic (erro_padrao_prop p_obs n).
Proof. reflexivity. Qed.

(** The standard error of a proportion in [0, 1] over a positive size is a
    number. *)
Lemma erro_padrao_prop_fin (p : R) (n : nat) :
  0 <= p <= 1 -> (0 < n)%nat ->
  erro_padrao_prop (Fin p) n = Fin (sqrt (p * (1 - p) / INR n)).
Proof.
  intros [Hp0 Hp1] Hn. unfold erro_padrao_prop.
  cbn [XR.mul XR.sub XR.add XR.opp].
  pose proof (lt_0_INR n Hn) as Hpos.
  rewrite XR_div_fin by lra.
  apply XR_sqrt_fin. apply div_nonneg; [|exact Hpos].
  apply Rmult_le_pos; lra.
Qed.

(** Whatever the size, the margin of a proportion in [0, 1] at a critical
    value that is not negative is a number that is not negative, [+inf], or
    [nan]. *)
Lemma ic_prop_margem_cases (zc p : R) (n : nat) :
  0 <= zc -> 0 <= p <= 1 ->
  (exists e : R, 0 <= e /\ margem_erro (ic_prop (Fin zc) (Fin p) n) = Fin e)
  \/ margem_erro (ic_prop (Fin zc) (Fin p) n) = PInf
  \/ margem_erro (ic_prop (Fin zc) (Fin p) n) = NaN.
Proof.
  intros Hz [Hp0 Hp1]. rewrite ic_prop_margem.
  destruct n as [|n'].
  - unfold erro_padrao_prop. cbn [XR.mul XR.sub XR.add XR.opp XR.div INR].
    assert (H00 : Reqb 0 0 = true) by (apply Reqb_true_iff; reflexivity).
    rewrite H00.
    destruct (Reqb (p * (1 + - p)) 0) eqn:Ha.
    + right; right. reflexivity.
    + apply Reqb_false_iff in Ha.
      assert (Hlt : Rltb 0 (p * (1 + - p)) = true).
      { apply Rltb_true_iff.
        assert (0 <= p * (1 + - p)) by (apply Rmult_le_pos; lra). lra. }
      rewrite Hlt. cbn [XR.inf_of_sign XR.sqrt XR.mul].
      destruct (Reqb zc 0) eqn:Hzc.
      * right; right. reflexivity.
      * apply Reqb_false_iff in Hzc.
        assert (Hz' : Rltb 0 zc = true) by (apply Rltb_true_iff; lra).
        rewrite Hz'. right; left. reflexivity.
  - rewrite erro_padrao_prop_fin by (try split; try lia; lra).
    left. exists (zc * sqrt (p * (1 - p) / INR (S n'))).
    split; [|reflexivity].
    apply Rmult_le_pos; [exact Hz | apply sqrt_pos].
Qed.

End IntervalFacts.

(** C10.  For an observed proportion p_obs in [0, 1] (and a critical value
    that is not negative, as norm.ppf(0.975) is), the reported interval of
    the proportion lies in the unit interval and holds p_obs:
    0 <= ic_prop_inferior <= p_obs <= ic_prop_superior <= 1. *)
Theorem proportion_interval_within_unit (zc p : R) (n : nat) :
  0 <= zc -> 0 <= p <= 1 ->
  exists lo hi : R,
    Intervalos.inferior (Intervalos.ic_prop (Fin zc) (Fin p) n) = Fin lo /\
    Intervalos.superior (Intervalos.ic_prop (Fin zc) (Fin p) n) = Fin hi /\
    0 <= lo /\ lo <= p /\ p <= hi /\ hi <= 1.
Proof.
  intros Hz Hp.
  rewrite ic_prop_inferior, ic_prop_superior.
  destruct (ic_prop_margem_cases zc p n Hz Hp) as [[e [He ->]]|[-> | ->]].
  - cbn [XR.sub XR.add XR.opp]. rewrite py_max_fin, py_min_fin.
    exists (Rmax 0 (p + - e)), (Rmin 1 (p + e)).
    split; [reflexivity|]. split; [reflexivity|].
    destruct Hp as [Hp0 Hp1].
    repeat split.
    + apply Rmax_l.
    + apply Rmax_lub; lra.
    + apply Rmin_glb; lra.
    + apply Rmin_l.
  - exists 0, 1. destruct Hp. repeat split; try reflexivity; lra.
  - exists 0, 1. destruct Hp. repeat split; try reflexivity; lra.
Qed.

(** C10 at a conformity of 1622 out of 1623 with the critical value 1.96. *)
Lemma proportion_interval_within_unit_witness :
  exists lo hi : R,
    Intervalos.inferior
      (Intervalos.ic_prop (Fin (196 / 100)) (Fin (1622 / 1623)) 1623) = Fin lo /\
    Intervalos.superior
      (Intervalos.ic_prop (Fin (196 / 100)) (Fin (1622 / 1623)) 1623) = Fin hi /\
    0 <= lo /\ lo <= 1622 / 1623 /\ 1622 / 1623 <= hi /\ hi <= 1.
Proof.
  apply (proportion_interval_within_unit (196 / 100) (1622 / 1623) 1623); lra.
Defined.

(** ** The intervals of a sample of two rows or more *)

Section LoteIntervalFacts.

Import Descritiva Intervalos.

Context {S : ScipyStats}.
Variable amostra : DataFrame.
Hypothesis Hn : (2 <= length amostra)%nat.

Lemma t_critico_fin :
  Lote.t_critico amostra
  = Fin (t_ppf (Z.of_nat (length amostra) - 1) (1 - Lote.alpha / 2)).
Proof.
  unfold Lote.t_critico, Testes.t_critico, Testes.t_ppf_x.
  assert (Hb : (0 <? Z.of_nat (length amostra) - 1)%Z = true)
    by (apply Z.ltb_lt; lia).
  rewrite Hb. reflexivity.
Qed.

(** The interval of a mean is made of numbers, symmetric around the
    mean. *)
Lemma ic_media_fin (campo : peca -> R) :
  exists m e : R,
    media (calcular_estatisticas (coluna campo amostra)) = Fin m /\
    estimativa (ic_media (Lote.t_critico amostra)
                  (calcular_estatisticas (coluna campo amostra)) amostra)
    = Fin m /\
    margem_erro (ic_media (Lote.t_critico amostra)
                   (calcular_estatisticas (coluna campo amostra)) amostra)
    = Fin e /\
    inferior (ic_media (Lote.t_critico amostra)
                (calcular_estatisticas (coluna campo amostra)) amostra)
    = Fin (m - e) /\
    superior (ic_media (Lote.t_critico amostra)
                (calcular_estatisticas (coluna campo amostra)) amostra)
    = Fin (m + e).
Proof.
  assert (Hlen : length (coluna campo amostra) = length amostra)
    by apply length_map.
  assert (Hn' : (2 <= length (coluna campo amostra))%nat) by lia.
  assert (Hne : coluna campo amostra <> []).
  { intros H0. rewrite H0 in Hn'. simpl in Hn'. lia. }
  pose proof (lt_1_INR (length amostra) Hn) as Hlt.
  assert (Hsn : 0 < sqrt (INR (length amostra))) by (apply sqrt_lt_R0; lra).
  unfold ic_media, erro_padrao.
  cbn [estimativa margem_erro inferior superior media desvio_padrao
       calcular_estatisticas].
  rewrite (mean_fin _ Hne), (std_fin _ Hn'), t_critico_fin.
  rewrite (XR_sqrt_fin (INR (length amostra))) by lra.
  rewrite XR_div_fin by lra.
  cbn [XR.mul XR.sub XR.add XR.opp].
  eexists. eexists.
  split; [reflexivity|]. split; [reflexivity|]. split; [reflexivity|].
  split; reflexivity.
Qed.

Lemma length_filter_le {A} (f : A -> bool) (l : list A) :
  (length (filter f l) <= length l)%nat.
Proof.
  induction l as [|a rest IH]; simpl; [lia|].
  destruct (f a); simpl; lia.
Qed.

(** The observed proportion is a number in [0, 1]. *)
Lemma p_obs_fin :
  exists p : R, Lote.p_obs amostra = Fin p /\ 0 <= p <= 1.
Proof.
  unfold Lote.p_obs, Testes.p_obs, Lote.x.
  rewrite pecas_conformes_map, serie_sum_map_filter.
  set (k := length (filter (Conformidade.conforme Lote.especificacoes) amostra)).
  assert (Hk : (k <= length amostra)%nat) by apply length_filter_le.
  assert (Hpos : 0 < INR (length amostra)) by (apply lt_0_INR; lia).
  rewrite XR_div_fin by lra.
  exists (INR k / INR (length amostra)). split; [reflexivity|].
  split.
  - apply div_nonneg; [apply pos_INR | exact Hpos].
  - apply div_le_iff; [exact Hpos|]. rewrite Rmult_1_l. apply le_INR. exact Hk.
Qed.

(** The interval of the proportion is made of numbers: the symmetric
    bounds, cut at 0 and at 1. *)
Lemma ic_proporcao_fin :
  exists p e : R,
    Lote.p_obs amostra = Fin p /\
    estimativa (Lote.ic_proporcao amostra) = Fin p /\
    margem_erro (Lote.ic_proporcao amostra) = Fin e /\
    inferior (Lote.ic_proporcao amostra) = Fin (Rmax 0 (p - e)) /\
    superior (Lote.ic_proporcao amostra) = Fin (Rmin 1 (p + e)).
Proof.
  destruct p_obs_fin as [p [Hp Hrange]].
  unfold Lote.ic_proporcao.
  rewrite ic_prop_inferior, ic_prop_superior, ic_prop_margem.
  cbn [estimativa ic_prop]. rewrite Hp.
  rewrite erro_padrao_prop_fin by (try exact Hrange; lia).
  unfold z_ic. cbn [XR.mul XR.sub XR.add XR.opp].
  rewrite py_max_fin, py_min_fin.
  eexists. eexists.
  split; [reflexivity|]. split; [reflexivity|]. split; [reflexivity|].
  split; reflexivity.
Qed.

End LoteIntervalFacts.

(** C4, as amended.  On a sample of two rows or more the three intervals
    are made of numbers.  For the weight mean and the dimension mean the
    bounds are the estimate minus and plus the margin of error, so they
    bracket it symmetrically.  For the proportion the bounds are the same
    two values cut to the unit interval: max(0, estimate - margin) and
    min(1, estimate + margin). *)
Theorem interval_bounds_around_estimate (S : ScipyStats) (amostra : DataFrame) :
  (2 <= length amostra)%nat ->
  (exists m e : R,
     Descritiva.media (Lote.stats_peso amostra) = Fin m /\
     Intervalos.estimativa (Lote.ic_peso amostra) = Fin m /\
     Intervalos.margem_erro (Lote.ic_peso amostra) = Fin e /\
     Intervalos.inferior (Lote.ic_peso amostra) = Fin (m - e) /\
     Intervalos.superior (Lote.ic_peso amostra) = Fin (m + e)) /\
  (exists m e : R,
     Descritiva.media (Lote.stats_dimensao amostra) = Fin m /\
     Intervalos.estimativa (Lote.ic_dimensao amostra) = Fin m /\
     Intervalos.margem_erro (Lote.ic_dimensao amostra) = Fin e /\
     Intervalos.inferior (Lote.ic_dimensao amostra) = Fin (m - e) /\
     Intervalos.superior (Lote.ic_dimensao amostra) = Fin (m + e)) /\
  (exists p e : R,
     Lote.p_obs amostra = Fin p /\
     Intervalos.estimativa (Lote.ic_proporcao amostra) = Fin p /\
     Intervalos.margem_erro (Lote.ic_proporcao amostra) = Fin e /\
     Intervalos.inferior (Lote.ic_proporcao amostra) = Fin (Rmax 0 (p - e)) /\
     Intervalos.superior (Lote.ic_proporcao amostra) = Fin (Rmin 1 (p + e))).
Proof.
  intros Hn. split; [|split].
  - exact (ic_media_fin amostra Hn peso).
  - exact (ic_media_fin amostra Hn dimensao).
  - exact (ic_proporcao_fin amostra Hn).
Qed.

(** The amended C4 on two parts around the targets. *)
Lemma interval_bounds_around_estimate_witness :
  (exists m e : R,
     Descritiva.media (Lote.stats_peso amostra_em_torno) = Fin m /\
     Intervalos.estimativa (@Lote.ic_peso biblioteca_t1 amostra_em_torno) = Fin m /\
     Intervalos.margem_erro (@Lote.ic_peso biblioteca_t1 amostra_em_torno) = Fin e /\
     Intervalos.inferior (@Lote.ic_peso biblioteca_t1 amostra_em_torno) = Fin (m - e) /\
     Intervalos.superior (@Lote.ic_peso biblioteca_t1 amostra_em_torno) = Fin (m + e)) /\
  (exists m e : R,
     Descritiva.media (Lote.stats_dimensao amostra_em_torno) = Fin m /\
     Intervalos.estimativa (@Lote.ic_dimensao biblioteca_t1 amostra_em_torno) = Fin m /\
     Intervalos.margem_erro (@Lote.ic_dimensao biblioteca_t1 amostra_em_torno) = Fin e /\
     Intervalos.inferior (@Lote.ic_dimensao biblioteca_t1 amostra_em_torno) = Fin (m - e) /\
     Intervalos.superior (@Lote.ic_dimensao biblioteca_t1 amostra_em_torno) = Fin (m + e)) /\
  (exists p e : R,
     Lote.p_obs amostra_em_torno = Fin p /\
     Intervalos.estimativa (@Lote.ic_proporcao biblioteca_t1 amostra_em_torno) = Fin p /\
     Intervalos.margem_erro (@Lote.ic_proporcao biblioteca_t1 amostra_em_torno) = Fin e /\
     Intervalos.inferior (@Lote.ic_proporcao biblioteca_t1 amostra_em_torno)
     = Fin (Rmax 0 (p - e)) /\
     Intervalos.superior (@Lote.ic_proporcao biblioteca_t1 amostra_em_torno)
     = Fin (Rmin 1 (p + e))).
Proof.
  apply (interval_bounds_around_estimate biblioteca_t1 amostra_em_torno).
  simpl. lia.
Defined.

(** C4, as stated, fails for the proportion: with 1622 conforming parts
    out of 1623 and the critical value 1.96, the estimate plus the margin of
    error is above 1, the reported upper bound is 1, and the distance from
    the estimate to the upper bound is not the margin.  (Any critical value
    from 1 up gives the same.) *)
Lemma proportion_interval_is_clamped :
  let ic := Intervalos.ic_prop (Fin (196 / 100)) (Testes.p_obs 1622 1623) 1623 in
  Intervalos.superior ic = Fin 1 /\
  Intervalos.superior ic
  <> XR.add (Intervalos.estimativa ic) (Intervalos.margem_erro ic) /\
  XR.sub (Intervalos.superior ic) (Intervalos.estimativa ic)
  <> Intervalos.margem_erro ic.
Proof.
  assert (Hn : INR 1623 = 1623) by (rewrite INR_IZR_INZ; reflexivity).
  assert (Hx : INR 1622 = 1622) by (rewrite INR_IZR_INZ; reflexivity).
  assert (Hp : Testes.p_obs 1622 1623 = Fin (1622 / 1623)).
  { unfold Testes.p_obs. rewrite XR_div_fin by (rewrite Hn; lra).
    rewrite Hn, Hx. reflexivity. }
  cbv zeta. rewrite ic_prop_superior, ic_prop_margem.
  cbn [Intervalos.estimativa Intervalos.ic_prop]. rewrite Hp.
  rewrite erro_padrao_prop_fin by (try lia; lra). rewrite Hn.
  set (a := 1622 / 1623 * (1 - 1622 / 1623) / 1623).
  assert (Ha : 0 <= a) by (unfold a; lra).
  pose proof (sqrt_sqrt a Ha) as Hss. pose proof (sqrt_pos a) as Hs0.
  assert (He : 1 / 1623 < 196 / 100 * sqrt a).
  { destruct (Rlt_le_dec (1 / 1623) (196 / 100 * sqrt a)) as [H|H];
      [exact H|exfalso].
    assert (Hsq : (196 / 100 * sqrt a) * (196 / 100 * sqrt a)
                  <= (1 / 1623) * (1 / 1623)).
    { apply Rmult_le_compat; lra. }
    replace ((196 / 100 * sqrt a) * (196 / 100 * sqrt a))
      with (196 / 100 * (196 / 100) * (sqrt a * sqrt a)) in Hsq by ring.
    rewrite Hss in Hsq. unfold a in Hsq. lra. }
  cbn [XR.mul XR.add XR.sub XR.opp]. rewrite py_min_fin.
  rewrite Rmin_left by lra.
  split; [reflexivity|]. split.
  - intros H. injection H as H. lra.
  - intros H. injection H as H. lra.
Qed.

(** ** Facts about the head of the script *)

Section SetupFacts.

Import Configuracao.

Variable env : ambiente.

(** [import seaborn] fails with an [ImportError]: the notice is printed,
    the flag is false, the block ends normally. *)
Lemma bloco_seaborn_unavailable (s : estado) (e : excecao) :
  import_seaborn env = Raise e -> e_ImportError e = true ->
  bloco_seaborn env s
  = (Ok tt, {| saida := saida s ++ [aviso_seaborn];
               SEABORN_AVAILABLE := Some false;
               estilo := estilo s |}).
Proof.
  intros Himp He.
  unfold bloco_seaborn, try_except, bind, chamada, print,
    set_SEABORN_AVAILABLE.
  rewrite Himp, He. reflexivity.
Qed.

(** seaborn is there: the flag is true, nothing is printed. *)
Lemma bloco_seaborn_available (s : estado) :
  import_seaborn env = Ok tt -> sns_set_palette env "husl" = Ok tt ->
  bloco_seaborn env s
  = (Ok tt, {| saida := saida s;
               SEABORN_AVAILABLE := Some true;
               estilo := estilo s |}).
Proof.
  intros Himp Hpal.
  unfold bloco_seaborn, try_except, bind, chamada, set_SEABORN_AVAILABLE.
  rewrite Himp, Hpal. reflexivity.
Qed.

(** Any other exception of the first block escapes it. *)
Lemma bloco_seaborn_escapes (s : estado) (e : excecao) :
  import_seaborn env = Raise e -> e_ImportError e = false ->
  bloco_seaborn env s = (Raise e, s).
Proof.
  intros Himp He.
  unfold bloco_seaborn, try_except, bind, chamada.
  rewrite Himp, He. reflexivity.
Qed.

(** With the default style at hand, the second block ends normally, on the
    first style the installation accepts; the notice is printed when that
    is the default one. *)
Lemma bloco_estilo_ok (s : estado) :
  plt_style_use env "default" = Ok tt ->
  bloco_estilo env s
  = (Ok tt, {| saida := saida s ++ (if estilo_padrao_usado env
                                    then [aviso_estilo] else []);
               SEABORN_AVAILABLE := SEABORN_AVAILABLE s;
               estilo := primeiro_estilo env |}).
Proof.
  intros Hdef.
  unfold bloco_estilo, try_except, bind, style_use, print, qualquer,
    estilo_padrao_usado, primeiro_estilo.
  destruct (plt_style_use env "seaborn-v0_8") as [[]|e1].
  - rewrite app_nil_r. destruct s; reflexivity.
  - destruct (plt_style_use env "seaborn") as [[]|e2].
    + rewrite app_nil_r. destruct s; reflexivity.
    + rewrite Hdef. reflexivity.
Qed.

(** When the default style itself is missing and the two others too, the
    exception of the last call escapes. *)
Lemma bloco_estilo_escapes (s : estado) (e1 e2 e3 : excecao) :
  plt_style_use env "seaborn-v0_8" = Raise e1 ->
  plt_style_use env "seaborn" = Raise e2 ->
  plt_style_use env "default" = Raise e3 ->
  bloco_estilo env s = (Raise e3, s).
Proof.
  intros H1 H2 H3.
  unfold bloco_estilo, try_except, bind, style_use, qualquer.
  rewrite H1, H2, H3. reflexivity.
Qed.

(** After a normal end of the two blocks, the script is its remainder. *)
Lemma script_after_setup (resto : M unit) (s s' : estado) :
  configuracao env s = (Ok tt, s') -> script env resto s = resto s'.
Proof.
  intros H. unfold script, bind. rewrite H. reflexivity.
Qed.

End SetupFacts.

(** C7.  When seaborn is there, or missing with an ImportError, and the
    default style exists, the two blocks at the head of the script end
    normally: the flag SEABORN_AVAILABLE tells whether the import
    returned, the notice is printed when it did not, the style in force is
    the first of 'seaborn-v0_8', 'seaborn', 'default' that the installation
    accepts, with a notice when it is the default one.  The rest of the
    script runs from that state with no handler around it: whatever it
    raises is what the script raises. *)
Theorem setup_fallbacks_continue
    (env : Configuracao.ambiente) (s : Configuracao.estado)
    (resto : Configuracao.M unit) :
  Configuracao.plt_style_use env "default" = Configuracao.Ok tt ->
  (Configuracao.import_seaborn env = Configuracao.Ok tt /\
   Configuracao.sns_set_palette env "husl" = Configuracao.Ok tt)
  \/ (exists e, Configuracao.import_seaborn env = Configuracao.Raise e /\
                Configuracao.e_ImportError e = true) ->
  exists s' : Configuracao.estado,
    Configuracao.configuracao env s = (Configuracao.Ok tt, s') /\
    Configuracao.SEABORN_AVAILABLE s'
    = Some (Configuracao.seaborn_importado env) /\
    Configuracao.estilo s' = Configuracao.primeiro_estilo env /\
    Configuracao.saida s'
    = Configuracao.saida s
      ++ (if Configuracao.seaborn_importado env then [] else [Configuracao.aviso_seaborn])
      ++ (if Configuracao.estilo_padrao_usado env then [Configuracao.aviso_estilo] else [])
    /\
    Configuracao.script env resto s = resto s' /\
    forall (e : Configuracao.excecao) (s'' : Configuracao.estado),
      resto s' = (Configuracao.Raise e, s'') ->
      Configuracao.script env resto s = (Configuracao.Raise e, s'').
Proof.
  intros Hdef Hsea.
  assert (Hconf : exists s1,
             Configuracao.bloco_seaborn env s = (Configuracao.Ok tt, s1) /\
             Configuracao.SEABORN_AVAILABLE s1
             = Some (Configuracao.seaborn_importado env) /\
             Configuracao.saida s1
             = Configuracao.saida s
               ++ (if Configuracao.seaborn_importado env
                   then [] else [Configuracao.aviso_seaborn])).
  { unfold Configuracao.seaborn_importado.
    destruct Hsea as [[Himp Hpal]|[e [Himp He]]].
    - eexists. split; [apply bloco_seaborn_available; assumption|].
      rewrite Himp. simpl. rewrite app_nil_r. split; reflexivity.
    - eexists. split; [apply (bloco_seaborn_unavailable env s e); assumption|].
      rewrite Himp. simpl. split; reflexivity. }
  destruct Hconf as [s1 [Hs1 [Hflag Hout]]].
  pose proof (bloco_estilo_ok env s1 Hdef) as Hs2.
  eexists.
  assert (Hcfg : Configuracao.configuracao env s
                 = (Configuracao.Ok tt,
                    {| Configuracao.saida :=
                         Configuracao.saida s1
                         ++ (if Configuracao.estilo_padrao_usado env
                             then [Configuracao.aviso_estilo] else []);
                       Configuracao.SEABORN_AVAILABLE :=
                         Configuracao.SEABORN_AVAILABLE s1;
                       Configuracao.estilo := Configuracao.primeiro_estilo env |})).
  { unfold Configuracao.configuracao, Configuracao.bind.
    rewrite Hs1. exact Hs2. }
  split; [exact Hcfg|]. simpl.
  split; [exact Hflag|]. split; [reflexivity|].
  split; [rewrite Hout, <- app_assoc; reflexivity|].
  split.
  - apply script_after_setup. exact Hcfg.
  - intros e s'' Hr. rewrite (script_after_setup env resto _ _ Hcfg). exact Hr.
Qed.

(** C7 on an installation without seaborn and without the seaborn styles:
    both notices are printed, the flag is false, the default style is in
    force. *)
Lemma setup_fallbacks_continue_witness :
  exists s' : Configuracao.estado,
    Configuracao.configuracao Configuracao.ambiente_minimo
      Configuracao.estado_inicial = (Configuracao.Ok tt, s') /\
    Configuracao.SEABORN_AVAILABLE s'
    = Some (Configuracao.seaborn_importado Configuracao.ambiente_minimo) /\
    Configuracao.estilo s'
    = Configuracao.primeiro_estilo Configuracao.ambiente_minimo /\
    Configuracao.saida s'
    = Configuracao.saida Configuracao.estado_inicial
      ++ (if Configuracao.seaborn_importado Configuracao.ambiente_minimo
          then [] else [Configuracao.aviso_seaborn])
      ++ (if Configuracao.estilo_padrao_usado Configuracao.ambiente_minimo
          then [Configuracao.aviso_estilo] else [])
    /\
    Configuracao.script Configuracao.ambiente_minimo
      (Configuracao.chamada (Configuracao.Raise (Configuracao.OutraExcecao "ValueError")))
      Configuracao.estado_inicial
    = Configuracao.chamada
        (Configuracao.Raise (Configuracao.OutraExcecao "ValueError")) s' /\
    forall (e : Configuracao.excecao) (s'' : Configuracao.estado),
      Configuracao.chamada
        (Configuracao.Raise (Configuracao.OutraExcecao "ValueError")) s'
      = (Configuracao.Raise e, s'') ->
      Configuracao.script Configuracao.ambiente_minimo
        (Configuracao.chamada
           (Configuracao.Raise (Configuracao.OutraExcecao "ValueError")))
        Configuracao.estado_inicial
      = (Configuracao.Raise e, s'').
Proof.
  apply (setup_fallbacks_continue Configuracao.ambiente_minimo
           Configuracao.estado_inicial
           (Configuracao.chamada
              (Configuracao.Raise (Configuracao.OutraExcecao "ValueError")))).
  - reflexivity.
  - right. exists Configuracao.ModuleNotFoundError. split; reflexivity.
Defined.

(** The run of the head of the script on that installation. *)
Example configuracao_ambiente_minimo :
  Configuracao.configuracao Configuracao.ambiente_minimo
    Configuracao.estado_inicial
  = (Configuracao.Ok tt,
     {| Configuracao.saida := [Configuracao.aviso_seaborn; Configuracao.aviso_estilo];
        Configuracao.SEABORN_AVAILABLE := Some false;
        Configuracao.estilo := Some "default"%string |}).
Proof. reflexivity. Qed.

(** * Further properties of the script *)

(** ** The t test of a mean against the interval of that mean *)

Lemma Rabs_le_iff (q c : R) : Rabs q <= c <-> - c <= q <= c.
Proof.
  unfold Rabs. destruct (Rcase_abs q); split; intros H; lra.
Qed.

Lemma abs_quotient_le_iff (d se c : R) :
  0 < se -> Rabs (d / se) <= c <-> - (c * se) <= d <= c * se.
Proof.
  intros Hse. rewrite Rabs_le_iff.
  assert (Hd : d = d / se * se) by (field; lra).
  set (q := d / se) in *. clearbody q. subst d.
  split; intros [H1 H2]; split; nra.
Qed.

Section MeanTestInterval.

Import Descritiva Testes Intervalos.

Context {S : ScipyStats}.
Variable amostra : DataFrame.
Hypothesis Hn : (2 <= length amostra)%nat.

Variable campo : peca -> R.

Let dados := coluna campo amostra.
Let m := soma dados / INR (length amostra).
Let s := sqrt (soma_quadrados dados / (INR (length amostra) - 1)).
Let se := s / sqrt (INR (length amostra)).
Let tc := t_ppf (Z.of_nat (length amostra) - 1) (1 - Lote.alpha / 2).

Lemma dados_length : length dados = length amostra.
Proof. apply length_map. Qed.

Lemma std_dados : std dados 1 = Fin s.
Proof.
  rewrite std_fin by (rewrite dados_length; exact Hn).
  unfold s. rewrite dados_length. reflexivity.
Qed.

(** The bounds of the interval, written out. *)
Lemma ic_media_bounds :
  inferior (ic_media (Lote.t_critico amostra) (calcular_estatisticas dados)
              amostra) = Fin (m - tc * se) /\
  superior (ic_media (Lote.t_critico amostra) (calcular_estatisticas dados)
              amostra) = Fin (m + tc * se).
Proof.
  pose proof (lt_1_INR (length amostra) Hn) as Hlt.
  assert (Hsn : 0 < sqrt (INR (length amostra))) by (apply sqrt_lt_R0; lra).
  assert (Hne : dados <> []).
  { intros H0. pose proof dados_length as Hl. rewrite H0 in Hl.
    simpl in Hl. lia. }
  unfold ic_media, erro_padrao.
  cbn [inferior superior media desvio_padrao calcular_estatisticas].
  rewrite (mean_fin _ Hne), std_dados, (t_critico_fin amostra Hn).
  rewrite (XR_sqrt_fin (INR (length amostra))) by lra.
  rewrite XR_div_fin by lra.
  rewrite dados_length.
  split; reflexivity.
Qed.

(** With a spread that is not zero the statistic is the deviation of the
    mean over the standard error. *)
Lemma ttest_statistic_fin (target : R) :
  std dados 1 <> Fin 0 ->
  0 < se /\ fst (ttest_1samp dados target) = Fin ((m - target) / se).
Proof.
  intros Hstd. rewrite std_dados in Hstd.
  pose proof (lt_1_INR (length amostra) Hn) as Hlt.
  assert (Hsn : 0 < sqrt (INR (length amostra))) by (apply sqrt_lt_R0; lra).
  assert (Hs : 0 < s).
  { destruct (sqrt_pos (soma_quadrados dados / (INR (length amostra) - 1)))
      as [Hp|Hz]; [exact Hp|].
    exfalso. apply Hstd. unfold s. rewrite <- Hz. reflexivity. }
  assert (Hse : 0 < se) by (apply Rdiv_lt_0_compat; assumption).
  split; [exact Hse|].
  rewrite ttest_large by (rewrite dados_length; exact Hn).
  rewrite dados_length.
  assert (Hq : sqrt (soma_quadrados dados / (INR (length amostra) - 1)
                     / INR (length amostra)) = se).
  { unfold se, s. apply sqrt_div; [|lra].
    apply div_nonneg; [apply soma_quadrados_nonneg | lra]. }
  rewrite Hq. apply XR_div_fin. lra.
Qed.

Lemma media_ok_iff_contem (target : R) :
  std dados 1 <> Fin 0 ->
  Decisao.media_ok (fst (ttest_1samp dados target)) (Lote.t_critico amostra)
  = true
  <->
  Proporcao.contem
    (ic_media (Lote.t_critico amostra) (calcular_estatisticas dados) amostra)
    target = true.
Proof.
  intros Hstd.
  destruct (ttest_statistic_fin target Hstd) as [Hse Ht].
  destruct ic_media_bounds as [Hinf Hsup].
  unfold Decisao.media_ok, Proporcao.contem.
  rewrite Ht, Hinf, Hsup, (t_critico_fin amostra Hn). fold tc.
  cbn [XR.abs XR.le].
  rewrite andb_true_iff, !Rleb_true_iff.
  rewrite (abs_quotient_le_iff _ _ _ Hse). lra.
Qed.

End MeanTestInterval.

(** ** The proportion test *)

Lemma length_filter_bound {A} (f : A -> bool) (l : list A) :
  (length (filter f l) <= length l)%nat.
Proof.
  induction l as [|a rest IH]; simpl; [lia|].
  destruct (f a); simpl; lia.
Qed.

Section ProportionTest.

Import Testes.

Context {S : ScipyStats}.
Variable amostra : DataFrame.

Lemma p0_variance_pos : 0 < Lote.p0 * (1 - Lote.p0).
Proof. unfold Lote.p0. lra. Qed.

(** The observed proportion of a sample that is not empty is a number of
    the unit interval. *)
Lemma p_obs_in_unit :
  amostra <> [] ->
  exists p : R, Lote.p_obs amostra = Fin p /\ 0 <= p <= 1.
Proof.
  intros Hne.
  assert (Hlen : (0 < length amostra)%nat).
  { destruct amostra; [contradiction | simpl; lia]. }
  unfold Lote.p_obs, Testes.p_obs, Lote.x.
  rewrite pecas_conformes_map, serie_sum_map_filter.
  set (k := length (filter (Conformidade.conforme Lote.especificacoes) amostra)).
  assert (Hk : (k <= length amostra)%nat) by apply length_filter_bound.
  assert (Hpos : 0 < INR (length amostra)) by (apply lt_0_INR; exact Hlen).
  rewrite XR_div_fin by lra.
  exists (INR k / INR (length amostra)). split; [reflexivity|].
  split.
  - apply div_nonneg; [apply pos_INR | exact Hpos].
  - apply div_le_iff; [exact Hpos|]. rewrite Rmult_1_l. apply le_INR. exact Hk.
Qed.

(** Python's division in [z_stat] raises on the empty sample only. *)
Lemma z_stat_none_iff : Proporcao.z_stat amostra = None <-> amostra = [].
Proof.
  unfold Proporcao.z_stat, Testes.z_stat, py_div.
  destruct amostra as [|r rest].
  - simpl. assert (H : Reqb 0 0 = true) by (apply Reqb_true_iff; reflexivity).
    rewrite H. split; reflexivity.
  - assert (Hpos : 0 < INR (length (r :: rest))) by (apply lt_0_INR; simpl; lia).
    assert (H : Reqb (INR (length (r :: rest))) 0 = false)
      by (apply Reqb_false_iff; lra).
    rewrite H. split; discriminate.
Qed.

(** On a sample that is not empty the statistic is a number. *)
Lemma z_stat_fin (p : R) :
  amostra <> [] -> Lote.p_obs amostra = Fin p ->
  Proporcao.z_stat amostra
  = Some (Fin ((p - Lote.p0)
               / sqrt (Lote.p0 * (1 - Lote.p0) / INR (length amostra)))).
Proof.
  intros Hne Hp.
  assert (Hpos : 0 < INR (length amostra)).
  { apply lt_0_INR. destruct amostra; [contradiction | simpl; lia]. }
  pose proof p0_variance_pos as Hv.
  assert (Hq : 0 < Lote.p0 * (1 - Lote.p0) / INR (length amostra))
    by (apply Rdiv_lt_0_compat; assumption).
  unfold Proporcao.z_stat, Testes.z_stat, py_div.
  assert (H : Reqb (INR (length amostra)) 0 = false)
    by (apply Reqb_false_iff; lra).
  rewrite H, Hp. rewrite XR_sqrt_fin by lra.
  cbn [XR.sub XR.add XR.opp].
  rewrite XR_div_fin; [reflexivity|].
  apply sqrt_lt_R0 in Hq. lra.
Qed.

Lemma p_value_prop_z_stat :
  Lote.p_value_prop amostra = option_map norm_cdf_x (Proporcao.z_stat amostra).
Proof. reflexivity. Qed.

(** With a p-value that is a number, the decision of the test and the
    criterion of the final decision are two readings of one comparison. *)
Lemma decisao_vs_conformidade_ok (pv alpha : R) :
  (decisao (Fin pv) alpha = "Não rejeitamos H0"%string
   <-> Decisao.conformidade_ok (Fin pv) alpha = true) /\
  (decisao (Fin pv) alpha = "Rejeitamos H0"%string
   <-> Decisao.conformidade_ok (Fin pv) alpha = false).
Proof.
  unfold decisao, Decisao.conformidade_ok, XR.ge. cbn [XR.lt XR.le].
  destruct (Rltb pv alpha) eqn:Hlt.
  - apply Rltb_true_iff in Hlt.
    assert (Hle : Rleb alpha pv = false) by (apply Rleb_false_iff; exact Hlt).
    rewrite Hle. split; split; intros H; try reflexivity; discriminate.
  - apply Rltb_false_iff in Hlt.
    assert (Hle : Rleb alpha pv = true) by (apply Rleb_true_iff; exact Hlt).
    rewrite Hle. split; split; intros H; try reflexivity; discriminate.
Qed.

End ProportionTest.

(** X2.  On a sample that is not empty the proportion test yields numbers:
    the observed proportion lies in [0, 1], the statistic is
    (p_obs - 0.95) / sqrt(0.95 * 0.05 / n), the p-value is the normal cdf
    of it; the decision of the test is "Não rejeitamos H0" exactly when
    the criterion conformidade_ok of the final decision is true, and
    "Rejeitamos H0" exactly when it is false. *)
Theorem proportion_test_decides_criterion
    (S : ScipyStats) (amostra : DataFrame) :
  amostra <> [] ->
  exists p zs : R,
    Lote.p_obs amostra = Fin p /\ 0 <= p <= 1 /\
    zs = (p - 95 / 100) / sqrt (95 / 100 * (1 - 95 / 100) / INR (length amostra))
    /\
    Proporcao.z_stat amostra = Some (Fin zs) /\
    Lote.p_value_prop amostra = Some (Fin (norm_cdf zs)) /\
    (Proporcao.decisao_prop amostra = Some "Não rejeitamos H0"%string
     <-> Proporcao.conformidade_ok amostra = Some true) /\
    (Proporcao.decisao_prop amostra = Some "Rejeitamos H0"%string
     <-> Proporcao.conformidade_ok amostra = Some false).
Proof.
  intros Hne.
  destruct (p_obs_in_unit amostra Hne) as [p [Hp Hrange]].
  pose proof (z_stat_fin amostra p Hne Hp) as Hz.
  eexists p, _. split; [exact Hp|]. split; [exact Hrange|].
  split; [reflexivity|]. split; [exact Hz|].
  assert (Hpv : Lote.p_value_prop amostra
                = Some (Fin (norm_cdf
                    ((p - 95 / 100)
                     / sqrt (95 / 100 * (1 - 95 / 100) / INR (length amostra)))))).
  { rewrite p_value_prop_z_stat, Hz. reflexivity. }
  split; [exact Hpv|].
  unfold Proporcao.decisao_prop, Proporcao.conformidade_ok. rewrite Hpv.
  cbn [option_map].
  destruct (decisao_vs_conformidade_ok
              (norm_cdf ((p - 95 / 100)
                 / sqrt (95 / 100 * (1 - 95 / 100) / INR (length amostra))))
              Lote.alpha) as [H1 H2].
  split; split; intros H; injection H as H; f_equal;
    first [apply H1; exact H | apply H2; exact H].
Qed.

Lemma proportion_test_decides_criterion_witness :
  exists p zs : R,
    Lote.p_obs amostra_em_torno = Fin p /\ 0 <= p <= 1 /\
    zs = (p - 95 / 100)
         / sqrt (95 / 100 * (1 - 95 / 100) / INR (length amostra_em_torno))
    /\
    @Proporcao.z_stat amostra_em_torno = Some (Fin zs) /\
    @Lote.p_value_prop biblioteca_t1 amostra_em_torno
    = Some (Fin (@norm_cdf biblioteca_t1 zs)) /\
    (@Proporcao.decisao_prop biblioteca_t1 amostra_em_torno
     = Some "Não rejeitamos H0"%string
     <-> @Proporcao.conformidade_ok biblioteca_t1 amostra_em_torno = Some true)
    /\
    (@Proporcao.decisao_prop biblioteca_t1 amostra_em_torno
     = Some "Rejeitamos H0"%string
     <-> @Proporcao.conformidade_ok biblioteca_t1 amostra_em_torno = Some false).
Proof.
  apply (proportion_test_decides_criterion biblioteca_t1 amostra_em_torno).
  discriminate.
Defined.

(** X3.  The division inside the statistic of the proportion test is
    Python's: the test raises ZeroDivisionError, and yields no p-value,
    exactly on the empty sample. *)
Theorem proportion_test_raises_on_empty_only
    (S : ScipyStats) (amostra : DataFrame) :
  (Proporcao.z_stat amostra = None <-> amostra = []) /\
  (Lote.p_value_prop amostra = None <-> amostra = []).
Proof.
  split; [apply z_stat_none_iff|].
  rewrite p_value_prop_z_stat.
  rewrite <- (z_stat_none_iff amostra).
  destruct (Proporcao.z_stat amostra); simpl; split; intros H;
    try discriminate; reflexivity.
Qed.

Lemma cauchy_cdf_0 : cauchy_cdf 0 = 1 / 2.
Proof.
  unfold cauchy_cdf. rewrite atan_0. pose proof PI_RGT_0. field. lra.
Qed.

Lemma cauchy_cdf_monotone (a b : R) : a <= b -> cauchy_cdf a <= cauchy_cdf b.
Proof.
  intros [Hlt | ->]; [|lra]. left. apply cauchy_cdf_increasing. exact Hlt.
Qed.

Lemma p_obs_em_torno : Lote.p_obs amostra_em_torno = Fin 1.
Proof.
  unfold Lote.p_obs, Testes.p_obs, Lote.x.
  rewrite pecas_conformes_map.
  unfold Conformidade.conforme, Lote.especificacoes, amostra_em_torno. simpl.
  decide_cmp. simpl. decide_cmp. f_equal. field.
Qed.

Lemma conformity_at_target_passes_aux (S : ScipyStats) (amostra : DataFrame) :
  (forall a b : R, a <= b -> norm_cdf a <= norm_cdf b) ->
  norm_cdf 0 = 1 / 2 ->
  amostra <> [] ->
  XR.ge (Lote.p_obs amostra) (Fin Lote.p0) = true ->
  Proporcao.conformidade_ok amostra = Some true /\
  Proporcao.decisao_prop amostra = Some "Não rejeitamos H0"%string.
Proof.
  intros Hmono H0 Hne Hge.
  destruct (p_obs_in_unit amostra Hne) as [p [Hp Hrange]].
  pose proof (z_stat_fin amostra p Hne Hp) as Hz.
  rewrite Hp in Hge. unfold XR.ge in Hge. cbn [XR.le] in Hge.
  apply Rleb_true_iff in Hge.
  set (zs := (p - Lote.p0)
             / sqrt (Lote.p0 * (1 - Lote.p0) / INR (length amostra))) in *.
  assert (Hzs : 0 <= zs).
  { unfold zs. apply div_nonneg; [lra|].
    apply sqrt_lt_R0. apply Rdiv_lt_0_compat; [apply p0_variance_pos|].
    apply lt_0_INR. destruct amostra; [contradiction | simpl; lia]. }
  assert (Hpv : Lote.p_value_prop amostra = Some (Fin (norm_cdf zs))).
  { rewrite p_value_prop_z_stat, Hz. reflexivity. }
  assert (Hcdf : Lote.alpha <= norm_cdf zs).
  { pose proof (Hmono 0 zs Hzs) as Hm. rewrite H0 in Hm.
    unfold Lote.alpha. lra. }
  assert (Hok : Decisao.conformidade_ok (Fin (norm_cdf zs)) Lote.alpha = true).
  { unfold Decisao.conformidade_ok, XR.ge. cbn [XR.le].
    apply Rleb_true_iff. exact Hcdf. }
  unfold Proporcao.conformidade_ok, Proporcao.decisao_prop. rewrite Hpv.
  cbn [option_map]. split; f_equal.
  - exact Hok.
  - apply (decisao_vs_conformidade_ok (norm_cdf zs) Lote.alpha). exact Hok.
Qed.

(** X4.  When the observed conformity is at least the 95% of the null
    hypothesis, the proportion test does not reject and the criterion
    conformidade_ok is true (the normal cdf is taken to be monotone with
    value 1/2 at 0). *)
Theorem conformity_at_target_passes (S : ScipyStats) (amostra : DataFrame) :
  (forall a b : R, a <= b -> norm_cdf a <= norm_cdf b) ->
  norm_cdf 0 = 1 / 2 ->
  amostra <> [] ->
  XR.ge (Lote.p_obs amostra) (Fin Lote.p0) = true ->
  Proporcao.conformidade_ok amostra = Some true /\
  Proporcao.decisao_prop amostra = Some "Não rejeitamos H0"%string.
Proof. exact (conformity_at_target_passes_aux S amostra). Qed.

Lemma conformity_at_target_passes_witness :
  @Proporcao.conformidade_ok biblioteca_t1 amostra_em_torno = Some true /\
  @Proporcao.decisao_prop biblioteca_t1 amostra_em_torno
  = Some "Não rejeitamos H0"%string.
Proof.
  apply (conformity_at_target_passes biblioteca_t1 amostra_em_torno).
  - exact cauchy_cdf_monotone.
  - exact cauchy_cdf_0.
  - discriminate.
  - rewrite p_obs_em_torno. unfold XR.ge, Lote.p0. cbn [XR.le].
    apply Rleb_true_iff. lra.
Defined.

(** ** The sample size as a function of its parameters *)

Section SampleSizeMonotone.

Import Amostragem.

Variables (N : Z) (z E : R).
Hypothesis HN : (1 < N)%Z.
Hypothesis HE : 0 < E.


End SampleSizeMonotone.




(** ** The conformity counts and the bar chart *)

Section ConformityCounts.

Import Conformidade.

Variable e : especificacao.

Lemma serie_sum_le_length (s : list bool) : (serie_sum s <= length s)%nat.
Proof.
  induction s as [|b rest IH]; simpl; [lia|]. destruct b; lia.
Qed.

(** A mask that implies another one row by row counts no more rows. *)
Lemma serie_sum_map_le {A} (f g : A -> bool) (l : list A) :
  (forall a, f a = true -> g a = true) ->
  (serie_sum (map f l) <= serie_sum (map g l))%nat.
Proof.
  intros Himp. induction l as [|a rest IH]; simpl; [lia|].
  destruct (f a) eqn:Hf.
  - rewrite (Himp a Hf). lia.
  - destruct (g a); lia.
Qed.

Lemma peso_conforme_map (amostra : DataFrame) :
  peso_conforme e amostra = map (Grafico.peso_ok e) amostra.
Proof.
  unfold peso_conforme, serie_and, serie_ge, serie_le, coluna.
  induction amostra as [|r rest IH]; [reflexivity|].
  simpl. rewrite IH. reflexivity.
Qed.

Lemma dimensao_conforme_map (amostra : DataFrame) :
  dimensao_conforme e amostra = map (Grafico.dimensao_ok e) amostra.
Proof.
  unfold dimensao_conforme, serie_and, serie_ge, serie_le, coluna.
  induction amostra as [|r rest IH]; [reflexivity|].
  simpl. rewrite IH. reflexivity.
Qed.

Lemma conforme_split (r : peca) :
  conforme e r = Grafico.peso_ok e r && Grafico.dimensao_ok e r.
Proof.
  unfold conforme, Grafico.peso_ok, Grafico.dimensao_ok.
  rewrite !andb_assoc. reflexivity.
Qed.

End ConformityCounts.

Lemma joint_conformity_count_is_smallest_aux
    (e : especificacao) (amostra : DataFrame) :
  length (Conformidade.peso_conforme e amostra) = length amostra /\
  length (Conformidade.dimensao_conforme e amostra) = length amostra /\
  length (Conformidade.pecas_conformes e amostra) = length amostra /\
  (Conformidade.serie_sum (Conformidade.pecas_conformes e amostra)
   <= Conformidade.serie_sum (Conformidade.peso_conforme e amostra))%nat /\
  (Conformidade.serie_sum (Conformidade.pecas_conformes e amostra)
   <= Conformidade.serie_sum (Conformidade.dimensao_conforme e amostra))%nat /\
  (Conformidade.serie_sum (Conformidade.peso_conforme e amostra)
   <= length amostra)%nat /\
  (Conformidade.serie_sum (Conformidade.dimensao_conforme e amostra)
   <= length amostra)%nat.
Proof.
  rewrite pecas_conformes_map, peso_conforme_map, dimensao_conforme_map.
  rewrite !length_map.
  split; [reflexivity|]. split; [reflexivity|]. split; [reflexivity|].
  split; [|split; [|split]].
  - apply serie_sum_map_le. intros r Hr. rewrite conforme_split in Hr.
    apply andb_true_iff in Hr. tauto.
  - apply serie_sum_map_le. intros r Hr. rewrite conforme_split in Hr.
    apply andb_true_iff in Hr. tauto.
  - pose proof (serie_sum_le_length (map (Grafico.peso_ok e) amostra)) as H.
    rewrite length_map in H. exact H.
  - pose proof (serie_sum_le_length (map (Grafico.dimensao_ok e) amostra)) as H.
    rewrite length_map in H. exact H.
Qed.

(** X7.  The three masks have one entry per row of the sample, and the
    parts conforming on both weight and dimension are counted among those
    conforming on weight and among those conforming on dimension: the joint
    count is at most each single count, and each count is at most the
    sample size. *)
Theorem joint_conformity_count_is_smallest
    (e : especificacao) (amostra : DataFrame) :
  length (Conformidade.peso_conforme e amostra) = length amostra /\
  length (Conformidade.dimensao_conforme e amostra) = length amostra /\
  length (Conformidade.pecas_conformes e amostra) = length amostra /\
  (Conformidade.serie_sum (Conformidade.pecas_conformes e amostra)
   <= Conformidade.serie_sum (Conformidade.peso_conforme e amostra))%nat /\
  (Conformidade.serie_sum (Conformidade.pecas_conformes e amostra)
   <= Conformidade.serie_sum (Conformidade.dimensao_conforme e amostra))%nat /\
  (Conformidade.serie_sum (Conformidade.peso_conforme e amostra)
   <= length amostra)%nat /\
  (Conformidade.serie_sum (Conformidade.dimensao_conforme e amostra)
   <= length amostra)%nat.
Proof. exact (joint_conformity_count_is_smallest_aux e amostra). Qed.

Lemma percent_le (k k' n : nat) :
  (0 < n)%nat -> (k <= k')%nat ->
  INR k / INR n * 100 <= INR k' / INR n * 100.
Proof.
  intros Hn Hk. apply lt_0_INR in Hn. apply le_INR in Hk.
  apply Rmult_le_compat_r; [lra|].
  unfold Rdiv. apply Rmult_le_compat_r; [|exact Hk].
  left. apply Rinv_0_lt_compat. exact Hn.
Qed.

Lemma percent_full (n : nat) : (0 < n)%nat -> INR n / INR n * 100 = 100.
Proof. intros Hn. apply lt_0_INR in Hn. field. lra. Qed.

(** X8.  On a sample that is not empty the three bars of the conformity
    chart are numbers between 0 and 100, the range of the chart's axis,
    and the bar of the parts conforming on both variables is no higher
    than the bar of either variable. *)
Theorem chart_values_fit_axis (e : especificacao) (amostra : DataFrame) :
  amostra <> [] ->
  exists a b c : R,
    Grafico.valores e amostra = [Fin a; Fin b; Fin c] /\
    0 <= c /\ c <= a /\ c <= b /\ a <= 100 /\ b <= 100.
Proof.
  intros Hne.
  assert (Hlen : (0 < length amostra)%nat).
  { destruct amostra; [contradiction | simpl; lia]. }
  assert (Hpos : 0 < INR (length amostra)) by (apply lt_0_INR; exact Hlen).
  destruct (joint_conformity_count_is_smallest_aux e amostra)
    as [L1 [L2 [L3 [Hcp [Hcd [Hp Hd]]]]]].
  unfold Grafico.valores, Grafico.serie_mean, Conformidade.proporcao_conformes.
  rewrite L1, L2.
  rewrite !XR_div_fin by lra. cbn [XR.mul].
  eexists _, _, _. split; [reflexivity|].
  split; [|split; [|split; [|split]]].
  - apply Rmult_le_pos; [|lra]. apply div_nonneg; [apply pos_INR | exact Hpos].
  - apply percent_le; assumption.
  - apply percent_le; assumption.
  - apply Rle_trans with (INR (length amostra) / INR (length amostra) * 100).
    + apply percent_le; assumption.
    + rewrite (percent_full (length amostra) Hlen). lra.
  - apply Rle_trans with (INR (length amostra) / INR (length amostra) * 100).
    + apply percent_le; assumption.
    + rewrite (percent_full (length amostra) Hlen). lra.
Qed.

Lemma chart_values_fit_axis_witness :
  exists a b c : R,
    Grafico.valores Lote.especificacoes amostra_em_torno
    = [Fin a; Fin b; Fin c] /\
    0 <= c /\ c <= a /\ c <= b /\ a <= 100 /\ b <= 100.
Proof.
  apply (chart_values_fit_axis Lote.especificacoes amostra_em_torno).
  discriminate.
Defined.

(** ** The printed justification and recommendations *)

Section ReportFacts.

Import Relatorio.

(** The three keys are in the dict the script builds. *)
Lemma dict_get_criterios (a b c : xreal) (d : xreal) (alpha : R) :
  dict_get "peso_media_ok" (Decisao.criterios_aprovacao a b c d alpha)
  = Some (Decisao.media_ok a c) /\
  dict_get "dimensao_media_ok" (Decisao.criterios_aprovacao a b c d alpha)
  = Some (Decisao.media_ok b c) /\
  dict_get "conformidade_ok" (Decisao.criterios_aprovacao a b c d alpha)
  = Some (Decisao.conformidade_ok d alpha).
Proof. repeat split. Qed.

(** A key the dict does not hold raises [KeyError]. *)
Lemma dict_get_missing (chave : string) (d : list (string * bool)) :
  ~ In chave (map fst d) -> dict_get chave d = None.
Proof.
  induction d as [|[k v] rest IH]; intros Hnin; [reflexivity|].
  simpl in *. destruct (String.eqb_spec k chave) as [->|Hne].
  - exfalso. apply Hnin. left. reflexivity.
  - apply IH. intros Hin. apply Hnin. right. exact Hin.
Qed.

Lemma recomendacoes_differ : recomendacoes_aprovado <> recomendacoes_reprovado.
Proof. discriminate. Qed.

(** The lines of the report from the three booleans. *)
Lemma report_of_booleans (a b c : bool) :
  let linhas := [ if a then peso_dentro else peso_fora;
                  if b then dimensao_dentro else dimensao_fora;
                  if c then conformidade_atende else conformidade_nao_atende ] in
  let recs := recomendacoes (if a && b && c then "APROVADO" else "REPROVADO") in
  (recs = recomendacoes_aprovado
   <-> linhas = [peso_dentro; dimensao_dentro; conformidade_atende]) /\
  (recs = recomendacoes_reprovado
   <-> In peso_fora linhas \/ In dimensao_fora linhas
       \/ In conformidade_nao_atende linhas).
Proof.
  destruct a, b, c; cbv zeta; simpl andb; cbv iota;
    (split; split; intros H;
     [ first [ reflexivity | exfalso; discriminate H ]
     | first [ reflexivity | exfalso; discriminate H ]
     | first [ simpl; tauto
             | exfalso; apply recomendacoes_differ; exact H ]
     | first [ reflexivity
             | exfalso; simpl in H;
               repeat match goal with
                 | H : _ \/ _ |- _ => destruct H as [H|H]
                 | H : False |- _ => contradiction
                 | H : _ = _ |- _ => discriminate H
                 end ] ]).
Qed.

End ReportFacts.

(** X9.  The printed report is consistent: the justification has one line
    per criterion, read from the dict; the recommendations are those of an
    approved lot ("O lote pode ser enviado ao cliente", ...) exactly when
    all three justification lines are the favourable ones, and those of a
    rejected lot ("NÃO enviar o lote ao cliente", ...) exactly when one of
    the lines reports a failure. *)
Theorem recommendations_follow_justification
    (t_stat_peso t_stat_dimensao t_critico p_value_prop : xreal) (alpha : R) :
  let criterios :=
    Decisao.criterios_aprovacao t_stat_peso t_stat_dimensao t_critico
      p_value_prop alpha in
  exists linhas : list string,
    Relatorio.justificativa criterios = Some linhas /\
    length linhas = 3%nat /\
    (Relatorio.recomendacoes (Decisao.decisao_final criterios)
     = Relatorio.recomendacoes_aprovado
     <-> linhas = [Relatorio.peso_dentro; Relatorio.dimensao_dentro;
                   Relatorio.conformidade_atende]) /\
    (Relatorio.recomendacoes (Decisao.decisao_final criterios)
     = Relatorio.recomendacoes_reprovado
     <-> In Relatorio.peso_fora linhas \/ In Relatorio.dimensao_fora linhas
         \/ In Relatorio.conformidade_nao_atende linhas).
Proof.
  intros criterios.
  destruct (dict_get_criterios t_stat_peso t_stat_dimensao t_critico
              p_value_prop alpha) as [H1 [H2 H3]].
  fold criterios in H1, H2, H3.
  unfold Relatorio.justificativa. rewrite H1, H2, H3.
  eexists. split; [reflexivity|]. split; [reflexivity|].
  assert (Hd : Decisao.decisao_final criterios
               = (if Decisao.media_ok t_stat_peso t_critico
                     && Decisao.media_ok t_stat_dimensao t_critico
                     && Decisao.conformidade_ok p_value_prop alpha
                  then "APROVADO" else "REPROVADO")%string).
  { unfold Decisao.decisao_final, Decisao.todos_criterios_ok, Decisao.values,
      criterios, Decisao.criterios_aprovacao. cbn [map snd].
    rewrite all_three. reflexivity. }
  rewrite Hd.
  exact (report_of_booleans (Decisao.media_ok t_stat_peso t_critico)
           (Decisao.media_ok t_stat_dimensao t_critico)
           (Decisao.conformidade_ok p_value_prop alpha)).
Qed.

(** ** The head of the script, on every installation *)

(** X10.  Whatever the installation answers, the first block either ends
    normally with the flag SEABORN_AVAILABLE set (true with nothing printed,
    or false with the notice printed, the style untouched), or lets through
    an exception that is not an ImportError and leaves the state as it
    was.  It never ends with the flag unset, and no ImportError, whether
    from the import or from set_palette, gets out of it. *)
Theorem seaborn_block_outcomes
    (env : Configuracao.ambiente) (s : Configuracao.estado) :
  (exists (b : bool) (s' : Configuracao.estado),
     Configuracao.bloco_seaborn env s = (Configuracao.Ok tt, s') /\
     Configuracao.SEABORN_AVAILABLE s' = Some b /\
     Configuracao.estilo s' = Configuracao.estilo s /\
     Configuracao.saida s'
     = Configuracao.saida s
       ++ (if b then [] else [Configuracao.aviso_seaborn]))
  \/
  (exists e : Configuracao.excecao,
     Configuracao.bloco_seaborn env s = (Configuracao.Raise e, s) /\
     Configuracao.e_ImportError e = false).
Proof.
  unfold Configuracao.bloco_seaborn, Configuracao.try_except,
    Configuracao.bind, Configuracao.chamada, Configuracao.print,
    Configuracao.set_SEABORN_AVAILABLE.
  destruct (Configuracao.import_seaborn env) as [[]|e1].
  - destruct (Configuracao.sns_set_palette env "husl") as [[]|e2].
    + left. exists true. eexists. split; [reflexivity|]. simpl.
      rewrite app_nil_r. repeat split.
    + destruct (Configuracao.e_ImportError e2) eqn:He.
      * left. exists false. eexists. split; [reflexivity|]. simpl.
        repeat split.
      * right. exists e2. split; [reflexivity | exact He].
  - destruct (Configuracao.e_ImportError e1) eqn:He.
    + left. exists false. eexists. split; [reflexivity|]. simpl.
      repeat split.
    + right. exists e1. split; [reflexivity | exact He].
Qed.

(** X11.  Whatever the installation answers, the style block ends normally
    as soon as one of 'seaborn-v0_8', 'seaborn', 'default' is accepted, with
    the first accepted one in force, the notice printed only when that is
    the default one, and the flag untouched; it raises only when all three
    are refused, and then it is the exception of the call for 'default'
    that gets out, with nothing printed and no style set.  The exceptions
    of the first two calls are always swallowed. *)
Theorem style_block_outcomes
    (env : Configuracao.ambiente) (s : Configuracao.estado) :
  (exists (nome : string) (s' : Configuracao.estado),
     Configuracao.bloco_estilo env s = (Configuracao.Ok tt, s') /\
     Configuracao.primeiro_estilo env = Some nome /\
     Configuracao.plt_style_use env nome = Configuracao.Ok tt /\
     Configuracao.estilo s' = Some nome /\
     Configuracao.SEABORN_AVAILABLE s' = Configuracao.SEABORN_AVAILABLE s /\
     Configuracao.saida s'
     = Configuracao.saida s
       ++ (if Configuracao.estilo_padrao_usado env
           then [Configuracao.aviso_estilo] else []))
  \/
  (exists e1 e2 e3 : Configuracao.excecao,
     Configuracao.plt_style_use env "seaborn-v0_8" = Configuracao.Raise e1 /\
     Configuracao.plt_style_use env "seaborn" = Configuracao.Raise e2 /\
     Configuracao.plt_style_use env "default" = Configuracao.Raise e3 /\
     Configuracao.bloco_estilo env s = (Configuracao.Raise e3, s)).
Proof.
  unfold Configuracao.bloco_estilo, Configuracao.try_except,
    Configuracao.bind, Configuracao.style_use, Configuracao.print,
    Configuracao.qualquer, Configuracao.primeiro_estilo,
    Configuracao.estilo_padrao_usado.
  destruct (Configuracao.plt_style_use env "seaborn-v0_8") as [[]|e1] eqn:H1.
  - left. exists "seaborn-v0_8"%string. eexists.
    split; [reflexivity|]. simpl. rewrite app_nil_r. repeat split.
    exact H1.
  - destruct (Configuracao.plt_style_use env "seaborn") as [[]|e2] eqn:H2.
    + left. exists "seaborn"%string. eexists.
      split; [reflexivity|]. simpl. rewrite app_nil_r. repeat split.
      exact H2.
    + destruct (Configuracao.plt_style_use env "default") as [[]|e3] eqn:H3.
      * left. exists "default"%string. eexists.
        split; [reflexivity|]. simpl. repeat split. exact H3.
      * right. exists e1, e2, e3. repeat split.
Qed.

(** ** More on the descriptive statistics *)

Section StatisticOutcomes.

Import Descritiva Testes.

Context {S : ScipyStats}.

(** The statistic on a series of two values or more with no spread. *)
Lemma ttest_no_spread (dados : list R) (popmean : R) :
  (2 <= length dados)%nat ->
  std dados 1 = Fin 0 ->
  let m := soma dados / INR (length dados) in
  (m = popmean /\ fst (ttest_1samp dados popmean) = NaN) \/
  (popmean < m /\ fst (ttest_1samp dados popmean) = PInf) \/
  (m < popmean /\ fst (ttest_1samp dados popmean) = NInf).
Proof.
  intros Hn Hstd m.
  pose proof (lt_1_INR (length dados) Hn) as Hlt.
  rewrite (std_fin dados Hn) in Hstd. injection Hstd as Hs.
  assert (Hv0 : 0 <= soma_quadrados dados / (INR (length dados) - 1)).
  { apply div_nonneg; [apply soma_quadrados_nonneg | lra]. }
  apply (sqrt_eq_0 _ Hv0) in Hs.
  rewrite (ttest_large dados popmean Hn). fold m. rewrite Hs.
  assert (Hz : sqrt (0 / INR (length dados)) = 0).
  { unfold Rdiv. rewrite Rmult_0_l. apply sqrt_0. }
  rewrite Hz. cbn [XR.div].
  assert (H00 : Reqb 0 0 = true) by (apply Reqb_true_iff; reflexivity).
  rewrite H00.
  destruct (Rtotal_order m popmean) as [Hlt'|[Heq|Hgt]].
  - right; right. split; [exact Hlt'|].
    assert (H1 : Reqb (m - popmean) 0 = false) by (apply Reqb_false_iff; lra).
    assert (H2 : Rltb 0 (m - popmean) = false) by (apply Rltb_false_iff; lra).
    rewrite H1, H2. reflexivity.
  - left. split; [exact Heq|].
    assert (H1 : Reqb (m - popmean) 0 = true) by (apply Reqb_true_iff; lra).
    rewrite H1. reflexivity.
  - right; left. split; [lra|].
    assert (H1 : Reqb (m - popmean) 0 = false) by (apply Reqb_false_iff; lra).
    assert (H2 : Rltb 0 (m - popmean) = true) by (apply Rltb_true_iff; lra).
    rewrite H1, H2. reflexivity.
Qed.

End StatisticOutcomes.

(** X13.  The weight statistic of the t test, by cases on the sample: with
    fewer than two rows it is nan; with two rows or more and a sample
    standard deviation that is not zero it is a number; with a standard
    deviation of zero (all weights equal) it is nan when the mean is the
    target of 150, +inf when the mean is above it and -inf when below. *)
Theorem weight_statistic_outcomes (S : ScipyStats) (amostra : DataFrame) :
  ((length amostra <= 1)%nat /\ Lote.t_stat_peso amostra = NaN)
  \/
  ((2 <= length amostra)%nat /\
   Descritiva.desvio_padrao (Lote.stats_peso amostra) <> Fin 0 /\
   exists t : R, Lote.t_stat_peso amostra = Fin t)
  \/
  ((2 <= length amostra)%nat /\
   Descritiva.desvio_padrao (Lote.stats_peso amostra) = Fin 0 /\
   exists m : R,
     Descritiva.media (Lote.stats_peso amostra) = Fin m /\
     ((m = 150 /\ Lote.t_stat_peso amostra = NaN) \/
      (150 < m /\ Lote.t_stat_peso amostra = PInf) \/
      (m < 150 /\ Lote.t_stat_peso amostra = NInf))).
Proof.
  unfold Lote.t_stat_peso, Lote.stats_peso, Lote.peso_target.
  cbn [Descritiva.desvio_padrao Descritiva.media
       Descritiva.calcular_estatisticas].
  assert (Hlen : length (coluna peso amostra) = length amostra)
    by apply length_map.
  destruct (Nat.leb_spec (length amostra) 1) as [Hn|Hn].
  - left. split; [exact Hn|]. apply ttest_small. lia.
  - right.
    assert (Hn2 : (2 <= length (coluna peso amostra))%nat) by lia.
    destruct (Req_dec_T
                (sqrt (Descritiva.soma_quadrados (coluna peso amostra)
                       / (INR (length (coluna peso amostra)) - 1))) 0)
      as [Hz|Hnz].
    + right. split; [lia|].
      assert (Hstd : Descritiva.std (coluna peso amostra) 1 = Fin 0).
      { rewrite (std_fin _ Hn2), Hz. reflexivity. }
      split; [exact Hstd|].
      exists (Descritiva.soma (coluna peso amostra)
              / INR (length (coluna peso amostra))).
      split.
      * apply mean_fin. intros H0. rewrite H0 in Hn2. simpl in Hn2. lia.
      * exact (ttest_no_spread (coluna peso amostra) 150 Hn2 Hstd).
    + left. split; [lia|].
      assert (Hstd : Descritiva.std (coluna peso amostra) 1 <> Fin 0).
      { rewrite (std_fin _ Hn2). intros H. injection H as H. contradiction. }
      split; [exact Hstd|].
      destruct (ttest_recomputed (coluna peso amostra) 150 Hn2 Hstd)
        as [m [s [_ [_ [_ [Ht _]]]]]].
      eexists. exact Ht.
Qed.

(** ** The extremes of a series *)

Section ExtremesFacts.

Import Descritiva Extremos.





End ExtremesFacts.


(** ** What an approval tells about the sample *)

Section ApprovalFacts.

Import Descritiva Testes.

Context {S : ScipyStats}.
Variable amostra : DataFrame.

(** A mean criterion can only hold on a statistic that is a number: the
    sample has two rows or more and the variable has a spread. *)
Lemma media_ok_true_fin (campo : peca -> R) (target : R) :
  Decisao.media_ok (fst (ttest_1samp (coluna campo amostra) target))
    (Lote.t_critico amostra) = true ->
  (2 <= length amostra)%nat /\
  std (coluna campo amostra) 1 <> Fin 0 /\
  exists t : R, fst (ttest_1samp (coluna campo amostra) target) = Fin t.
Proof.
  intros Hok.
  assert (Hlen : length (coluna campo amostra) = length amostra)
    by apply length_map.
  destruct (Nat.leb_spec (length amostra) 1) as [Hn|Hn].
  { rewrite ttest_small in Hok by lia. discriminate Hok. }
  assert (Hn2 : (2 <= length amostra)%nat) by lia.
  assert (Hn2' : (2 <= length (coluna campo amostra))%nat) by lia.
  split; [exact Hn2|].
  assert (Hstd : std (coluna campo amostra) 1 <> Fin 0).
  { intros Hstd.
    rewrite (t_critico_fin amostra Hn2) in Hok.
    destruct (ttest_no_spread (coluna campo amostra) target Hn2' Hstd)
      as [[_ Ht]|[[_ Ht]|[_ Ht]]];
      rewrite Ht in Hok; discriminate Hok. }
  split; [exact Hstd|].
  destruct (ttest_statistic_fin amostra Hn2 campo target Hstd) as [_ Ht].
  eexists. exact Ht.
Qed.

End ApprovalFacts.

(** X16.  An approved lot stands on well-defined statistics: when the
    label is "APROVADO" the sample has two rows or more, the weight and the
    dimension have a sample standard deviation that is not zero, both t
    statistics are numbers, the three criteria are true, and each of the
    two confidence intervals of a mean holds its target (150 and 25). *)
Theorem approved_lot_certificate (S : ScipyStats) (amostra : DataFrame) :
  Lote.decisao_final amostra = Some "APROVADO"%string ->
  (2 <= length amostra)%nat /\
  Descritiva.desvio_padrao (Lote.stats_peso amostra) <> Fin 0 /\
  Descritiva.desvio_padrao (Lote.stats_dimensao amostra) <> Fin 0 /\
  (exists t : R, Lote.t_stat_peso amostra = Fin t) /\
  (exists t : R, Lote.t_stat_dimensao amostra = Fin t) /\
  Lote.peso_media_ok amostra = true /\
  Lote.dimensao_media_ok amostra = true /\
  Proporcao.conformidade_ok amostra = Some true /\
  Proporcao.contem (Lote.ic_peso amostra) Lote.peso_target = true /\
  Proporcao.contem (Lote.ic_dimensao amostra) Lote.dimensao_target = true.
Proof.
  intros Hfinal. rewrite lote_decisao_final in Hfinal.
  unfold Proporcao.conformidade_ok.
  destruct (Lote.p_value_prop amostra) as [pv|]; [|discriminate Hfinal].
  cbn [option_map] in *.
  destruct (Lote.peso_media_ok amostra) eqn:Hp;
    [|simpl in Hfinal; discriminate Hfinal].
  destruct (Lote.dimensao_media_ok amostra) eqn:Hd;
    [|simpl in Hfinal; discriminate Hfinal].
  destruct (Decisao.conformidade_ok pv Lote.alpha) eqn:Hc;
    [|simpl in Hfinal; discriminate Hfinal].
  destruct (media_ok_true_fin amostra peso Lote.peso_target Hp)
    as [Hn [Hsp Htp]].
  destruct (media_ok_true_fin amostra dimensao Lote.dimensao_target Hd)
    as [_ [Hsd Htd]].
  split; [exact Hn|]. split; [exact Hsp|]. split; [exact Hsd|].
  split; [exact Htp|]. split; [exact Htd|].
  split; [reflexivity|]. split; [reflexivity|]. split; [reflexivity|].
  split.
  - apply (media_ok_iff_contem amostra Hn peso Lote.peso_target Hsp). exact Hp.
  - apply (media_ok_iff_contem amostra Hn dimensao Lote.dimensao_target Hsd).
    exact Hd.
Qed.

Lemma cauchy_ppf_pos (q : R) : 1 / 2 < q < 1 -> 0 < cauchy_ppf q.
Proof.
  intros [Hq0 Hq1]. unfold cauchy_ppf. pose proof PI_RGT_0 as Hpi.
  apply tan_gt_0; nra.
Qed.

(** On a sample whose mean is the target the criterion holds as soon as
    the critical value is not negative. *)
Lemma media_ok_centered `{ScipyStats} (amostra : DataFrame)
    (campo : peca -> R) (target : R) :
  (2 <= length amostra)%nat ->
  Descritiva.std (coluna campo amostra) 1 <> Fin 0 ->
  Descritiva.soma (coluna campo amostra) = INR (length amostra) * target ->
  0 <= t_ppf (Z.of_nat (length amostra) - 1) (1 - Lote.alpha / 2) ->
  Decisao.media_ok (fst (Testes.ttest_1samp (coluna campo amostra) target))
    (Lote.t_critico amostra) = true.
Proof.
  intros Hn Hstd Hsoma Htc.
  destruct (ttest_statistic_fin amostra Hn campo target Hstd) as [Hse Ht].
  rewrite Ht, (t_critico_fin amostra Hn), Hsoma.
  unfold Decisao.media_ok. cbn [XR.abs XR.le]. apply Rleb_true_iff.
  pose proof (lt_1_INR (length amostra) Hn) as Hlt.
  replace (INR (length amostra) * target / INR (length amostra) - target)
    with 0 by (field; lra).
  unfold Rdiv at 1. rewrite Rmult_0_l, Rabs_R0. exact Htc.
Qed.

(** The two parts around the targets make an approved lot under Student's
    t with one degree of freedom. *)
Lemma decisao_final_em_torno :
  @Lote.decisao_final biblioteca_t1 amostra_em_torno = Some "APROVADO"%string.
Proof.
  assert (Htc : 0 <= @t_ppf biblioteca_t1
                       (Z.of_nat (length amostra_em_torno) - 1)
                       (1 - Lote.alpha / 2)).
  { left. apply cauchy_ppf_pos. unfold Lote.alpha. lra. }
  assert (Hp : @Lote.peso_media_ok biblioteca_t1 amostra_em_torno = true).
  { apply media_ok_centered; [simpl; lia | | | exact Htc].
    - apply std_two_apart. simpl. lra.
    - unfold Descritiva.soma, Lote.peso_target, Lote.dimensao_target.
      simpl. ring. }
  assert (Hd : @Lote.dimensao_media_ok biblioteca_t1 amostra_em_torno = true).
  { apply media_ok_centered; [simpl; lia | | | exact Htc].
    - apply std_two_apart. simpl. lra.
    - unfold Descritiva.soma, Lote.peso_target, Lote.dimensao_target.
      simpl. ring. }
  destruct (conformity_at_target_passes_aux biblioteca_t1 amostra_em_torno)
    as [Hc _].
  - exact cauchy_cdf_monotone.
  - exact cauchy_cdf_0.
  - discriminate.
  - rewrite p_obs_em_torno. unfold XR.ge, Lote.p0. cbn [XR.le].
    apply Rleb_true_iff. lra.
  - rewrite lote_decisao_final, Hp, Hd.
    unfold Proporcao.conformidade_ok in Hc.
    destruct (@Lote.p_value_prop biblioteca_t1 amostra_em_torno) as [pv|];
      [|discriminate Hc].
    cbn [option_map] in *. injection Hc as Hc. rewrite Hc. reflexivity.
Qed.

Lemma approved_lot_certificate_witness :
  (2 <= length amostra_em_torno)%nat /\
  Descritiva.desvio_padrao (Lote.stats_peso amostra_em_torno) <> Fin 0 /\
  Descritiva.desvio_padrao (Lote.stats_dimensao amostra_em_torno) <> Fin 0 /\
  (exists t : R, @Lote.t_stat_peso biblioteca_t1 amostra_em_torno = Fin t) /\
  (exists t : R, @Lote.t_stat_dimensao biblioteca_t1 amostra_em_torno = Fin t) /\
  @Lote.peso_media_ok biblioteca_t1 amostra_em_torno = true /\
  @Lote.dimensao_media_ok biblioteca_t1 amostra_em_torno = true /\
  @Proporcao.conformidade_ok biblioteca_t1 amostra_em_torno = Some true /\
  Proporcao.contem (@Lote.ic_peso biblioteca_t1 amostra_em_torno)
    Lote.peso_target = true /\
  Proporcao.contem (@Lote.ic_dimensao biblioteca_t1 amostra_em_torno)
    Lote.dimensao_target = true.
Proof.
  apply (approved_lot_certificate biblioteca_t1 amostra_em_torno).
  exact decisao_final_em_torno.
Defined.

(** * The sample size as binary64 computes it *)

(** The real values of the floats involved. *)
Lemma Lote64_z_R : Binario64.to_R Lote64.z = 8827055269646172 / 4503599627370496.
Proof.
  unfold Binario64.to_R.
  replace (Prim2SF Lote64.z) with (S754_finite false 8827055269646172 (-52))
    by (vm_compute; reflexivity).
  reflexivity.
Qed.

Lemma Lote64_p_R : Binario64.to_R Lote64.p = 4503599627370496 / 9007199254740992.
Proof.
  unfold Binario64.to_R.
  replace (Prim2SF Lote64.p) with (S754_finite false 4503599627370496 (-53))
    by (vm_compute; reflexivity).
  reflexivity.
Qed.

Lemma Lote64_E_R : Binario64.to_R Lote64.E = 5764607523034235 / 288230376151711744.
Proof.
  unfold Binario64.to_R.
  replace (Prim2SF Lote64.E) with (S754_finite false 5764607523034235 (-58))
    by (vm_compute; reflexivity).
  reflexivity.
Qed.

Lemma Lote64_E_minusculo_R :
  Binario64.to_R Lote64.E_minusculo
  = 7737125245533627 / 77371252455336267181195264.
Proof.
  unfold Binario64.to_R.
  replace (Prim2SF Lote64.E_minusculo)
    with (S754_finite false 7737125245533627 (-86))
    by (vm_compute; reflexivity).
  reflexivity.
Qed.

(** Each float lies within half a unit in the last place of the decimal
    written in the source (units 2^-52 for 1.96, 2^-58 for 0.02, 2^-86 for
    1e-10): it is the float Python reads for that decimal; 0.5 is exact. *)
Lemma Lote64_close_to_decimals :
  Rabs (Binario64.to_R Lote64.z - 196 / 100) < 1 / 2 ^ 53 /\
  Binario64.to_R Lote64.p = 5 / 10 /\
  Rabs (Binario64.to_R Lote64.E - 2 / 100) < 1 / 2 ^ 59 /\
  Rabs (Binario64.to_R Lote64.E_minusculo - 1 / 10 ^ 10) < 1 / 2 ^ 87.
Proof.
  rewrite Lote64_z_R, Lote64_p_R, Lote64_E_R, Lote64_E_minusculo_R.
  split; [|split; [|split]].
  - apply Rabs_def1; lra.
  - lra.
  - apply Rabs_def1; lra.
  - apply Rabs_def1; lra.
Qed.

Section Binary64AtTheConstants.




End Binary64AtTheConstants.




